(** * Trading advisor: moving-average crossover engine

    A shallow embedding of the Python sources
      - [src/indicators/simple_indicators.py]  (class [SimpleIndicators])
      - [src/signals/simple_signals.py]        (class [SimpleSignalGenerator])
      - [api/api.py]                           (endpoint [analyze_stock])
    and the properties of the specification proved (or refuted) on it.

    Conventions of the embedding.
    - Prices and averages are Python/numpy floats in the source.  They are
      modelled by exact rationals [Q]; rounding error of binary floating
      point is not modelled.  Equality of numbers is [Qeq] (written [==]).
      Where the exact value of a computed level matters, module [Binary64]
      evaluates [_create_buy_signal] on IEEE 754 doubles instead.
    - A float cell of a pandas column that may be missing (NaN) is an
      [option Q]; [None] is NaN, so [pd.isna] is the test for [None].
    - A [pd.Timestamp] / [datetime] is its integer count of nanoseconds since
      the epoch; [.date()] is the whole number of days.
    - Python exceptions are the [Raise] branch of the [result] monad.
    - Printing ([print], [strftime] in messages) is not modelled. *)

From Stdlib Require Import QArith Lqa.
From Stdlib Require Import Floats.PrimFloat.
From stdpp Require Import gmap strings list sorting pretty.

(** ** Python values, exceptions *)

Module Py.

Inductive exn : Type :=
| ZeroDivisionError
| TypeError
| IndexError
| HTTPException (status_code : nat).

Inductive result (A : Type) : Type :=
| Ok (a : A)
| Raise (e : exn).
Global Arguments Ok {A} a.
Global Arguments Raise {A} e.

Global Instance result_bind : MBind result := λ A B k c,
  match c with
  | Ok a => k a
  | Raise e => Raise e
  end.

(** [for x in xs: acc = body acc x], stopping at the first exception. *)
Fixpoint for_each {A S} (body : S → A → result S) (xs : list A) (acc : S)
  : result S :=
  match xs with
  | [] => Ok acc
  | x :: xs' => body acc x ≫= for_each body xs'
  end.

(** [range(lo, hi)] *)
Definition range (lo hi : nat) : list nat := seq lo (hi - lo).

(** Float division [a / b]: Python raises on a zero divisor.  (numpy
    scalars would give inf/nan with a warning instead; every property below
    is stated for non-zero divisors, where the two agree.) *)
Definition truediv (a b : Q) : result Q :=
  if Qeq_bool b 0 then Raise ZeroDivisionError else Ok (a / b)%Q.

(** Float comparisons [a < b], [a <= b], [a > b], [a >= b] on numbers that
    are not NaN. *)
Definition lt (a b : Q) : bool := negb (Qle_bool b a).
Definition le (a b : Q) : bool := Qle_bool a b.
Definition gt (a b : Q) : bool := lt b a.
Definition ge (a b : Q) : bool := le b a.

(** A dynamically typed value as stored in the [current_ma_status] dict:
    [None], or a number (a float, possibly NaN, or the int default [0]). *)
Inductive value : Type :=
| PyNone
| PyNum (x : option Q).

(** [a > b] on dynamically typed values: ordering [None] against anything
    is a [TypeError] in Python 3; a comparison with NaN is [False]. *)
Definition gt_dyn (a b : value) : result bool :=
  match a, b with
  | PyNum (Some x), PyNum (Some y) => Ok (gt x y)
  | PyNum _, PyNum _ => Ok false
  | _, _ => Raise TypeError
  end.

End Py.

Import Py.

(** ** pandas: data frames and rolling means *)

Module Pandas.

(** Nanoseconds since the epoch. *)
Definition Timestamp : Type := Z.

Definition ns_per_day : Z := 86400000000000.

(** [t.date()] as a day number; [(d1 - d2).days] is then [d1 - d2]. *)
Definition date_of (t : Timestamp) : Z := (t `div` ns_per_day)%Z.

(** A price frame: the date index, the [Close] column (finite prices) and
    the float columns added later, by name.  pandas keeps every column as
    long as the index ([wf] below). *)
Record DataFrame : Type := {
  index : list Timestamp;
  Close : list Q;
  columns : gmap string (list (option Q))
}.

Definition len (df : DataFrame) : nat := length (index df).

(** [df.empty] *)
Definition empty (df : DataFrame) : bool := bool_decide (len df = 0%nat).

(** [df[name] = col] on a copy. *)
Definition set_column (df : DataFrame) (name : string)
    (col : list (option Q)) : DataFrame :=
  {| index := index df; Close := Close df;
     columns := <[name := col]> (columns df) |}.

(** [col.iloc[i]] for [0 <= i]; out of range is an [IndexError]. *)
Definition iloc {A} (col : list A) (i : nat) : result A :=
  match col !! i with
  | Some x => Ok x
  | None => Raise IndexError
  end.

(** [col.iloc[-1]] *)
Definition iloc_last {A} (col : list A) : result A :=
  match last col with
  | Some x => Ok x
  | None => Raise IndexError
  end.

Definition Qsum (xs : list Q) : Q := foldr Qplus 0%Q xs.

(** [xs.rolling(window=w).mean()]: with the default [min_periods = w], the
    cell at position [i] is NaN until [w] observations are available, and
    afterwards the mean of the [w] trailing values ending at [i].  An empty
    window ([w = 0]) has no mean. *)
Definition rolling_mean (w : nat) (xs : list Q) : list (option Q) :=
  imap (λ i _,
          if bool_decide (0 < w ∧ w ≤ i + 1)%nat
          then Some (Qsum (take w (drop (i + 1 - w) xs))
                       / inject_Z (Z.of_nat w))%Q
          else None) xs.

(** Every column is as long as the index. *)
Definition wf (df : DataFrame) : Prop :=
  length (Close df) = len df ∧
  ∀ name col, columns df !! name = Some col → length col = len df.

End Pandas.

Import Pandas.

(** ** indicators/simple_indicators.py *)

Module SimpleIndicators.

(** Column name [f'SMA_{window}']. *)
Definition sma_name (window : nat) : string := "SMA_" +:+ pretty window.

(** [add_moving_averages(data, short_window=20, long_window=50)].
    Window sizes are naturals here. *)
Definition add_moving_averages (data : option DataFrame)
    (short_window long_window : nat) : option DataFrame :=
  match data with
  | None => None
  | Some data =>
      if empty data then None
      else
        let result := data in
        let result :=
          set_column result (sma_name short_window)
            (rolling_mean short_window (Close result)) in
        let result :=
          set_column result (sma_name long_window)
            (rolling_mean long_window (Close result)) in
        Some result
  end.

End SimpleIndicators.

Import SimpleIndicators.

(** ** signals/simple_signals.py *)

(** A signal dictionary. *)
Module Signal.
Record t : Type := mk {
  date : Timestamp;
  symbol : string;
  type : string;
  price : Q;
  stop_loss : option Q;
  take_profit : option Q;
  risk_reward_ratio : option Q;
  reason : string
}.
End Signal.

(** The dictionary returned by [analyze_signal_performance] on a BUY signal. *)
Module Performance.
Record t : Type := mk {
  status : string;
  outcome : string;
  entry_price : Q;
  current_price : Q;
  current_return_pct : Q;
  stop_loss : option Q;
  take_profit : option Q;
  days_holding : Z;
  risk_reward_ratio : option Q
}.
End Performance.

Module SimpleSignalGenerator.

(** The instance attributes set by [__init__]. *)
Record t : Type := mk {
  stop_loss_pct : Q;
  take_profit_pct : Q
}.

(** [SimpleSignalGenerator()] with the default arguments. *)
Definition with_defaults : t :=
  {| stop_loss_pct := 0.05; take_profit_pct := 0.10 |}.

(** On exact rationals; [Binary64._create_buy_signal] below is the same
    function on doubles. *)
Definition _create_buy_signal (self : t) (date : Timestamp) (price : Q)
    (symbol : string) : result Signal.t :=
  let stop_loss := (price * (1 - stop_loss_pct self))%Q in
  let take_profit := (price * (1 + take_profit_pct self))%Q in
  ratio ← truediv (take_profit_pct self) (stop_loss_pct self);
  Ok {| Signal.date := date;
        Signal.symbol := symbol;
        Signal.type := "BUY";
        Signal.price := price;
        Signal.stop_loss := Some stop_loss;
        Signal.take_profit := Some take_profit;
        Signal.risk_reward_ratio := Some ratio;
        Signal.reason := "SMA 20 crossed above SMA 50" |}.

Definition _create_sell_signal (self : t) (date : Timestamp) (price : Q)
    (symbol : string) : Signal.t :=
  {| Signal.date := date;
     Signal.symbol := symbol;
     Signal.type := "SELL";
     Signal.price := price;
     Signal.stop_loss := None;
     Signal.take_profit := None;
     Signal.risk_reward_ratio := None;
     Signal.reason := "SMA 20 crossed below SMA 50" |}.

(** One iteration of the [for i in range(1, len(...))] loop of
    [find_crossover_signals]; [signals] is the list built so far. *)
Definition crossover_step (self : t) (df : DataFrame)
    (SMA_20 SMA_50 : list (option Q)) (symbol : string)
    (signals : list Signal.t) (i : nat) : result (list Signal.t) :=
  current_date ← iloc (index df) i;
  current_price ← iloc (Close df) i;
  sma_20_today ← iloc SMA_20 i;
  sma_50_today ← iloc SMA_50 i;
  sma_20_yesterday ← iloc SMA_20 (i - 1);
  sma_50_yesterday ← iloc SMA_50 (i - 1);
  match sma_20_today, sma_50_today, sma_20_yesterday, sma_50_yesterday with
  | Some sma_20_today, Some sma_50_today,
    Some sma_20_yesterday, Some sma_50_yesterday =>
      if le sma_20_yesterday sma_50_yesterday
         && gt sma_20_today sma_50_today
      then
        signal ← _create_buy_signal self current_date current_price symbol;
        Ok (signals ++ [signal])
      else if ge sma_20_yesterday sma_50_yesterday
              && lt sma_20_today sma_50_today
      then
        let signal :=
          _create_sell_signal self current_date current_price symbol in
        Ok (signals ++ [signal])
      else Ok signals
  | _, _, _, _ => Ok signals  (* a NaN on either day: [continue] *)
  end.

Definition find_crossover_signals (self : t)
    (data_with_indicators : option DataFrame) (symbol : string)
    : result (list Signal.t) :=
  match data_with_indicators with
  | None => Ok []
  | Some df =>
      if bool_decide (len df < 51)%nat then Ok []
      else
        match columns df !! "SMA_20", columns df !! "SMA_50" with
        | Some SMA_20, Some SMA_50 =>
            for_each (crossover_step self df SMA_20 SMA_50 symbol)
              (range 1 (len df)) []
        | _, _ => Ok []
        end
  end.

Definition get_latest_signal (signals : list Signal.t) : option Signal.t :=
  last signals.

(** What [analyze_signal_performance] returns: the [{'error': ...}]
    dictionary or the performance dictionary. *)
Inductive analysis : Type :=
| error (message : string)
| performance (p : Performance.t).

(** [x >= y] / [x <= y] where [y] is a signal field that is [None] on SELL
    signals: ordering a float against [None] is a [TypeError]. *)
Definition ge_field (x : Q) (y : option Q) : result bool :=
  match y with Some y => Ok (ge x y) | None => Raise TypeError end.
Definition le_field (x : Q) (y : option Q) : result bool :=
  match y with Some y => Ok (le x y) | None => Raise TypeError end.

(** [analyze_signal_performance(signal, current_price)].  [now] is the
    value [datetime.now()] returns when the body reads the clock. *)
Definition analyze_signal_performance (self : t) (now : Timestamp)
    (signal : Signal.t) (current_price : Q) : result analysis :=
  if bool_decide (Signal.type signal ≠ "BUY")
  then Ok (error "Performance analysis only for BUY signals")
  else
    let entry_price := Signal.price signal in
    let stop_loss := Signal.stop_loss signal in
    let take_profit := Signal.take_profit signal in
    ratio ← truediv (current_price - entry_price)%Q entry_price;
    let current_return_pct := (ratio * 100)%Q in
    hit ← ge_field current_price take_profit;
    '(status, outcome) ←
      (if hit : bool then Ok ("🎯 TARGET HIT", "WIN")
       else
         stopped ← le_field current_price stop_loss;
         if stopped : bool then Ok ("🛑 STOPPED OUT", "LOSS")
         else Ok ("⏳ ACTIVE", "PENDING"));
    let days_since := (date_of now - date_of (Signal.date signal))%Z in
    Ok (performance
          {| Performance.status := status;
             Performance.outcome := outcome;
             Performance.entry_price := entry_price;
             Performance.current_price := current_price;
             Performance.current_return_pct := current_return_pct;
             Performance.stop_loss := stop_loss;
             Performance.take_profit := take_profit;
             Performance.days_holding := days_since;
             Performance.risk_reward_ratio :=
               Signal.risk_reward_ratio signal |}).

(** [dict.get(key)] and [dict.get(key, default)]. *)
Definition get (d : gmap string value) (key : string) : value :=
  default PyNone (d !! key).
Definition get_or (d : gmap string value) (key : string) (dflt : value)
  : value :=
  default dflt (d !! key).

(** [get_current_recommendation(signals, current_ma_status)]; [now] is the
    value of [datetime.now()] (read only when there is a latest signal). *)
Definition get_current_recommendation (self : t) (now : Timestamp)
    (signals : list Signal.t) (current_ma_status : gmap string value)
    : result string :=
  let latest_signal := get_latest_signal signals in
  match latest_signal with
  | None =>
      bullish ← gt_dyn (get current_ma_status "sma_20")
                       (get_or current_ma_status "sma_50"
                          (PyNum (Some 0%Q)));
      if bullish : bool
      then Ok "🟢 WATCH FOR PULLBACK - Currently bullish, wait for better entry"
      else Ok "🔴 STAY AWAY - Currently bearish trend"
  | Some latest_signal =>
      let days_since :=
        (date_of now - date_of (Signal.date latest_signal))%Z in
      if bool_decide (Signal.type latest_signal = "BUY") then
        if bool_decide (days_since ≤ 5)%Z
        then Ok "📈 RECENT BUY SIGNAL - Consider entry or monitor position"
        else Ok "⏳ OLD BUY SIGNAL - Reassess current conditions"
      else if bool_decide (Signal.type latest_signal = "SELL") then
        if bool_decide (days_since ≤ 5)%Z
        then Ok "📉 RECENT SELL SIGNAL - Avoid buying, consider exit"
        else Ok "🔍 OLD SELL SIGNAL - Monitor for trend change"
      else Ok "🤔 UNCLEAR - Review signals and current trend"
  end.

End SimpleSignalGenerator.

Import SimpleSignalGenerator.

(** ** api/api.py *)

Module Api.

(** The fields of the response of [analyze_stock] that the analysis
    computes.  Formatting for the front end (rounding to two decimals,
    ISO dates, the chart points, the timestamp of the analysis) is left
    out; the fields hold the values before rounding. *)
Record response : Type := {
  current_price : Q;
  sma_20 : option Q;
  sma_50 : option Q;
  trend : string;
  trend_strength : Q;
  data_points : nat;
  signals : list Signal.t;
  signals_count_total : nat;
  signals_count_buy : nat;
  signals_count_sell : nat
}.

(** The module-level [signal_generator = SimpleSignalGenerator()]. *)
Definition signal_generator : SimpleSignalGenerator.t :=
  SimpleSignalGenerator.with_defaults.

(** [latest_data.get(name, 0)] where [latest_data] is the last row. *)
Definition latest_get (df : DataFrame) (name : string) : result (option Q) :=
  match columns df !! name with
  | Some col => iloc_last col
  | None => Ok (Some 0%Q)
  end.

(** The "Calculate trend" block of [analyze_stock] (the [if]/[else] on
    [pd.isna] and the four-way chain below it).  The strength divides by the
    slow average; at a zero slow average this model raises, where numpy
    gives the label with an infinite or NaN strength, so the properties of
    this block are stated for a non-zero slow average. *)
Definition calculate_trend (current_price : Q) (sma_20 sma_50 : option Q)
    : result (string * Q) :=
  match sma_20, sma_50 with
  | Some sma_20, Some sma_50 =>
      if gt current_price sma_20 && gt sma_20 sma_50 then
        r ← truediv (sma_20 - sma_50)%Q sma_50;
        Ok ("STRONG_BULLISH", (r * 100)%Q)
      else if gt current_price sma_20 && lt sma_20 sma_50 then
        r ← truediv (sma_50 - sma_20)%Q sma_50;
        Ok ("MIXED_BULLISH", (r * 100)%Q)
      else if lt current_price sma_20 && lt sma_20 sma_50 then
        r ← truediv (sma_50 - sma_20)%Q sma_50;
        Ok ("STRONG_BEARISH", (r * 100)%Q)
      else
        r ← truediv (sma_20 - sma_50)%Q sma_50;
        Ok ("MIXED_BEARISH", (r * 100)%Q)
  | _, _ => Ok ("INSUFFICIENT_DATA", 0%Q)
  end.

(** [except Exception: raise HTTPException(500)]; an [HTTPException]
    raised inside is re-raised as it is. *)
Definition as_http_500 {A} (c : result A) : result A :=
  match c with
  | Ok a => Ok a
  | Raise (HTTPException code) => Raise (HTTPException code)
  | Raise _ => Raise (HTTPException 500)
  end.

Definition count_type (ty : string) (signals : list Signal.t) : nat :=
  length (filter (λ s, Signal.type s = ty) signals).

(** [analyze_stock(symbol, period)]; [fetched] is what
    [data_fetcher.get_stock_data(symbol, period)] returned. *)
Definition analyze_stock (fetched : option DataFrame) (symbol : string)
    : result response :=
  as_http_500
    (match fetched with
     | None => Raise (HTTPException 404)
     | Some data =>
         match add_moving_averages (Some data) 20 50 with
         | None => Raise (HTTPException 500)
         | Some data_with_indicators =>
             signals ← find_crossover_signals signal_generator
                         (Some data_with_indicators) symbol;
             _ ← iloc_last (index data_with_indicators);
             sma_20 ← latest_get data_with_indicators "SMA_20";
             sma_50 ← latest_get data_with_indicators "SMA_50";
             current_price ← iloc_last (Close data_with_indicators);
             '(trend, trend_strength) ←
               calculate_trend current_price sma_20 sma_50;
             Ok {| current_price := current_price;
                   sma_20 := sma_20;
                   sma_50 := sma_50;
                   trend := trend;
                   trend_strength := trend_strength;
                   data_points := len data_with_indicators;
                   signals := signals;
                   signals_count_total := length signals;
                   signals_count_buy := count_type "BUY" signals;
                   signals_count_sell := count_type "SELL" signals |}
         end
     end).

End Api.

Import Api.

(** ** Vocabulary of the specification *)

Module Spec.

(** The cell of column [name] at bar [i]: [None] when there is no such
    column or bar, [Some None] when the average is undefined (NaN) there,
    [Some (Some v)] when it is defined with value [v]. *)
Definition cell (df : DataFrame) (name : string) (i : nat)
  : option (option Q) :=
  columns df !! name ≫= (.!! i).

(** Arithmetic mean of [closes] over the [n] indices [lo, lo+1, ...]. *)
Definition mean_over (closes : list Q) (lo n : nat) : Q :=
  (Qsum ((λ j, nth j closes 0%Q) <$> seq lo n) / inject_Z (Z.of_nat n))%Q.

(** The frame [add_moving_averages] returns for a non-empty input. *)
Definition with_averages (data : DataFrame) (short_window long_window : nat)
  : DataFrame :=
  set_column
    (set_column data (sma_name short_window)
       (rolling_mean short_window (Close data)))
    (sma_name long_window) (rolling_mean long_window (Close data)).

(** The value of the moving average [name] at bar [i], when defined. *)
Definition ma (df : DataFrame) (name : string) (i : nat) : option Q :=
  mjoin (cell df name i).

(** The crossover between bars [i-1] and [i], if any, read off the two
    average columns the detector looks at. *)
Definition crossover (df : DataFrame) (i : nat) : option string :=
  match ma df "SMA_20" (i - 1), ma df "SMA_50" (i - 1),
        ma df "SMA_20" i, ma df "SMA_50" i with
  | Some f0, Some s0, Some f1, Some s1 =>
      if le f0 s0 && gt f1 s1 then Some "BUY"
      else if ge f0 s0 && lt f1 s1 then Some "SELL"
      else None
  | _, _, _, _ => None
  end.

(** The bars [1 <= i < len df] at which there is a crossover, in order. *)
Definition crossover_bars (df : DataFrame) : list nat :=
  filter (λ i, is_Some (crossover df i)) (range 1 (len df)).

(** [s] is the signal the detector creates for the crossover at bar [i]. *)
Definition emitted_at (self : SimpleSignalGenerator.t) (df : DataFrame)
    (symbol : string) (i : nat) (s : Signal.t) : Prop :=
  ∃ d p, index df !! i = Some d ∧ Close df !! i = Some p ∧
    ((crossover df i = Some "BUY" ∧
      _create_buy_signal self d p symbol = Ok s)
     ∨ (crossover df i = Some "SELL" ∧
        s = _create_sell_signal self d p symbol)).

(** The average [name] is undefined on every bar (an absent column or a
    column of NaN). *)
Definition entirely_undefined (df : DataFrame) (name : string) : Prop :=
  ∀ i, ma df name i = None.

(** The kinds of signal the detector creates. *)
Definition buy_or_sell (s : Signal.t) : Prop :=
  Signal.type s = "BUY" ∨ Signal.type s = "SELL".

(** The slow average is undefined on the first 49 bars, as in every frame
    that [add_moving_averages] builds with the default windows. *)
Definition slow_warmup (df : DataFrame) : Prop :=
  ∀ i, (i < 49)%nat → ma df "SMA_50" i = None.

(** Strictly increasing dates. *)
Definition ascending (dates : list Timestamp) : Prop :=
  StronglySorted Z.lt dates.

End Spec.

Import Spec.

(** ** Concrete inputs used by the examples below *)

Module Examples.

(** The frame of [test_moving_average_calculation]: ten closes on a
    default integer index. *)
Definition test_data : DataFrame :=
  {| index := Z.of_nat <$> seq 0 10;
     Close := [10; 12; 14; 16; 18; 20; 22; 24; 26; 28]%Q;
     columns := ∅ |}.

(** [n] consecutive daily bars starting at the epoch. *)
Definition daily (closes : list Q) : DataFrame :=
  {| index := (λ i, Z.of_nat i * ns_per_day)%Z <$> seq 0 (length closes);
     Close := closes;
     columns := ∅ |}.

(** The BUY signal of [test_performance_analysis], dated at day 100. *)
Definition test_signal : Signal.t :=
  {| Signal.date := (100 * ns_per_day)%Z;
     Signal.symbol := "TEST";
     Signal.type := "BUY";
     Signal.price := 100;
     Signal.stop_loss := Some 95%Q;
     Signal.take_profit := Some 110%Q;
     Signal.risk_reward_ratio := Some 2%Q;
     Signal.reason := "SMA 20 crossed above SMA 50" |}.

(** The SELL signal of [test_edge_cases]. *)
Definition sell_signal : Signal.t :=
  _create_sell_signal with_defaults (100 * ns_per_day)%Z 100 "TEST".

(** Fifty daily bars, all closing at 100. *)
Definition fifty_flat : DataFrame := daily (replicate 50 100%Q).

(** Sixty-two daily closes: flat at 100, a dip to 90, a jump to 120 that
    takes the 20-day average above the 50-day one at bar 55, and a fall to
    50 that takes it back below at bar 56. *)
Definition crossing_closes : list Q :=
  (replicate 40 100 ++ replicate 10 90 ++ replicate 6 120
     ++ replicate 6 50)%Q.

Definition crossing_frame : DataFrame :=
  with_averages (daily crossing_closes) 20 50.

End Examples.

Import Examples.

(** ** data/data_fetcher.py *)

Module DataFetcher.

(** [get_stock_data(symbol, period)].  [history] is the outcome of the
    download [yf.Ticker(symbol).history(period=period)]: a frame, or an
    exception, which the [try]/[except] turns into [None]. *)
Definition get_stock_data (history : result DataFrame) : option DataFrame :=
  match history with
  | Ok data => if empty data then None else Some data
  | Raise _ => None
  end.

End DataFetcher.

Import DataFetcher.

(** ** indicators/simple_indicators.py: [analyze_trend] *)

Module TrendAnalysis.

Definition newline : string := String (Ascii.ascii_of_nat 10) EmptyString.



(** The [if]/[elif] chain of [analyze_trend]: the trend and its
    explanation. *)
Definition describe_trend (current_price sma_20 sma_50 : Q)
  : string * string :=
  if gt current_price sma_20 && gt sma_20 sma_50 then
    ("🟢 STRONG BULLISH",
     "Price above both averages, short MA above long MA")
  else if gt current_price sma_20 && lt sma_20 sma_50 then
    ("🟡 MIXED (Price up, but trend weakening)",
     "Price above short MA, but short MA below long MA")
  else if lt current_price sma_20 && lt sma_20 sma_50 then
    ("🔴 STRONG BEARISH",
     "Price below both averages, short MA below long MA")
  else if lt current_price sma_20 && gt sma_20 sma_50 then
    ("🟡 MIXED (Price down, but trend strengthening)",
     "Price below short MA, but short MA above long MA")
  else ("🟡 NEUTRAL", "Mixed signals").

Section printing.

(** The float format [f"{x:.2f}"]. *)
Variable fmt2 : Q → string.


End printing.

End TrendAnalysis.

Import TrendAnalysis.

(** ** main.py: what [display_full_analysis] computes for the advisor *)

Module Main.

(** Outcomes of the caller: it can also fail with a [KeyError] when it
    indexes a column the frame does not have. *)
Inductive outcome (A : Type) : Type :=
| Returned (a : A)
| KeyError (key : string)
| Raised (e : exn).
Global Arguments Returned {A} a.
Global Arguments KeyError {A} key.
Global Arguments Raised {A} e.

Definition of_result {A} (c : result A) : outcome A :=
  match c with
  | Ok a => Returned a
  | Raise e => Raised e
  end.

(** [data_with_indicators[name].iloc[-1]] *)
Definition last_of_column (df : DataFrame) (name : string)
  : outcome (option Q) :=
  match columns df !! name with
  | Some col => of_result (iloc_last col)
  | None => KeyError name
  end.

(** The dictionary [current_ma_status] (main.py, lines 97-100). *)
Definition current_ma_status (data_with_indicators : DataFrame)
  : outcome (gmap string value) :=
  match last_of_column data_with_indicators "SMA_20" with
  | Returned sma_20 =>
      match last_of_column data_with_indicators "SMA_50" with
      | Returned sma_50 =>
          Returned (<["sma_50" := PyNum sma_50]>
                      (<["sma_20" := PyNum sma_20]> ∅))
      | KeyError key => KeyError key
      | Raised e => Raised e
      end
  | KeyError key => KeyError key
  | Raised e => Raised e
  end.

(** The recommendation shown (main.py, lines 97-102). *)
Definition recommendation (signal_gen : SimpleSignalGenerator.t)
    (now : Timestamp) (data_with_indicators : DataFrame)
    (signals : list Signal.t) : outcome string :=
  match current_ma_status data_with_indicators with
  | Returned status =>
      of_result (get_current_recommendation signal_gen now signals status)
  | KeyError key => KeyError key
  | Raised e => Raised e
  end.

(** [days_ago] of the latest signal (main.py, line 78): counted from the
    last bar of the frame, not from the clock. *)
Definition days_ago (data_with_indicators : DataFrame)
    (latest_signal : Signal.t) : result Z :=
  last_bar ← iloc_last (index data_with_indicators);
  Ok (date_of last_bar - date_of (Signal.date latest_signal))%Z.

End Main.

(** ** tests/test_simple_indicators.py: counting valid values *)

Module Series.

(** [col.notna().sum()] *)
Definition notna_sum (col : list (option Q)) : nat :=
  length (filter is_Some col).

End Series.

Import Series.

(** ** signals/simple_signals.py: [display_signals_summary] *)

Module SignalsSummary.

Global Instance outcome_bind : MBind Main.outcome := λ A B k c,
  match c with
  | Main.Returned a => k a
  | Main.KeyError key => Main.KeyError key
  | Main.Raised e => Main.Raised e
  end.

(** Truth value of [current_price] ([None] by default) or of a level of a
    signal: [None] and [0.0] are false. *)
Definition truthy (x : option Q) : bool :=
  match x with
  | Some v => negb (Qeq_bool v 0)
  | None => false
  end.

(** [signals[-3:] if len(signals) > 3 else signals] *)
Definition recent_signals (signals : list Signal.t) : list Signal.t :=
  if bool_decide (3 < length signals)%nat
  then drop (length signals - 3) signals
  else signals.

(** ["=" * n] *)
Definition equals (n : nat) : string := String.concat "" (replicate n "=").

(** A signal the summary can print: a SELL, or a BUY that has both levels
    and a non-zero entry price. *)
Definition displayable (s : Signal.t) : Prop :=
  Signal.type s = "SELL" ∨
  (Signal.type s = "BUY" ∧ is_Some (Signal.stop_loss s) ∧
   is_Some (Signal.take_profit s) ∧ ¬ (Signal.price s == 0)%Q).

Section printing.

(** [d.strftime('%Y-%m-%d')], [f"{x:.2f}"] and [f"{x:+.1f}"]. *)
Variable strftime : Timestamp → string.
Variable fmt2 : Q → string.
Variable fmt_signed1 : Q → string.

(** [f"{x:.2f}"] on a signal level: formatting [None] is a [TypeError]. *)
Definition fmt2_level (x : option Q) : Main.outcome string :=
  match x with
  | Some v => Main.Returned (fmt2 v)
  | None => Main.Raised TypeError
  end.

(** The lines printed for the [i]-th recent signal (the body of the
    [for i, signal in enumerate(recent_signals, 1)] loop). *)
Definition display_signal (self : SimpleSignalGenerator.t) (now : Timestamp)
    (current_price : option Q) (i : nat) (signal : Signal.t)
  : Main.outcome (list string) :=
  let line :=
    pretty i +:+ ". " +:+ Signal.type signal +:+ " on "
      +:+ strftime (Signal.date signal) +:+ " at $"
      +:+ fmt2 (Signal.price signal) in
  if bool_decide (Signal.type signal = "BUY") then
    stop ← fmt2_level (Signal.stop_loss signal);
    target ← fmt2_level (Signal.take_profit signal);
    let levels := "   🛑 Stop: $" +:+ stop +:+ " | 🎯 Target: $" +:+ target in
    if truthy current_price then
      performance ←
        Main.of_result
          (analyze_signal_performance self now signal
             (default 0%Q current_price));
      match performance with
      | performance p =>
          Main.Returned
            [line; levels;
             "   📊 " +:+ Performance.status p +:+ " ("
               +:+ fmt_signed1 (Performance.current_return_pct p) +:+ "%)"]
      | error _ => Main.KeyError "status"
      end
    else Main.Returned [line; levels]
  else Main.Returned [line].

Fixpoint display_each (self : SimpleSignalGenerator.t) (now : Timestamp)
    (current_price : option Q) (i : nat) (recent : list Signal.t)
  : Main.outcome (list string) :=
  match recent with
  | [] => Main.Returned []
  | signal :: rest =>
      lines ← display_signal self now current_price i signal;
      more ← display_each self now current_price (S i) rest;
      Main.Returned (lines ++ more)
  end.

(** [display_signals_summary(signals, current_price=None)]: the lines it
    prints, in order.  (When a step fails, the lines printed before it are
    not recorded.) *)
Definition display_signals_summary (self : SimpleSignalGenerator.t)
    (now : Timestamp) (signals : list Signal.t) (current_price : option Q)
  : Main.outcome (list string) :=
  match signals with
  | [] => Main.Returned ["📭 No signals found"]
  | _ =>
      let buy_signals := filter (λ s, Signal.type s = "BUY") signals in
      let sell_signals := filter (λ s, Signal.type s = "SELL") signals in
      recent ← display_each self now current_price 1 (recent_signals signals);
      Main.Returned
        ([newline +:+ "🚦 SIGNALS SUMMARY (" +:+ pretty (length signals)
            +:+ " total)";
          equals 50;
          "📈 BUY signals: " +:+ pretty (length buy_signals);
          "📉 SELL signals: " +:+ pretty (length sell_signals);
          newline +:+ "📋 Recent Signals:"] ++ recent)
  end.

End printing.

End SignalsSummary.

Import SignalsSummary.

(** ** api/api.py: the signals as sent to the front end *)

Module ApiFormat.

(** A formatted signal; [risk] holds [stop_loss], [take_profit] and
    [risk_reward_ratio] when the dictionary has them. *)
Record formatted_signal : Type := {
  id : string;
  date : string;
  type : string;
  price : Q;
  reason : string;
  risk : option (Q * Q * option Q)
}.

Section formatting.

(** [d.strftime('%Y%m%d')], [d.isoformat()] and [round(float(x), 2)]. *)
Variable strftime : Timestamp → string.
Variable isoformat : Timestamp → string.
Variable round2 : Q → Q.

(** The body of the [for signal in signals] loop of [analyze_stock]. *)
Definition format_signal (symbol : string) (signal : Signal.t)
  : formatted_signal :=
  {| id := symbol +:+ "_" +:+ strftime (Signal.date signal) +:+ "_"
             +:+ Signal.type signal;
     date := isoformat (Signal.date signal);
     type := Signal.type signal;
     price := round2 (Signal.price signal);
     reason := Signal.reason signal;
     risk :=
       if bool_decide (Signal.type signal = "BUY")
          && truthy (Signal.stop_loss signal)
          && truthy (Signal.take_profit signal)
       then
         match Signal.stop_loss signal, Signal.take_profit signal with
         | Some stop_loss, Some take_profit =>
             Some (round2 stop_loss, round2 take_profit,
                   Signal.risk_reward_ratio signal)
         | _, _ => None
         end
       else None |}.

Definition formatted_signals (symbol : string) (signals : list Signal.t)
  : list formatted_signal :=
  format_signal symbol <$> signals.

End formatting.

End ApiFormat.

(** ** signals/simple_signals.py on doubles: [_create_buy_signal] *)

Module Binary64.

(** A signal dictionary whose numbers are IEEE 754 binary64 values, as
    Python's [float] and numpy's [float64] are. *)
Record Signal : Type := {
  date : Timestamp;
  symbol : string;
  type : string;
  price : float;
  stop_loss : option float;
  take_profit : option float;
  risk_reward_ratio : option float;
  reason : string
}.

(** The instance attributes set by [__init__]. *)
Record Generator : Type := {
  stop_loss_pct : float;
  take_profit_pct : float
}.

(** The doubles Python reads the literals [0.05], [0.10] and [0.01] as, and
    the double next above 110, printed [110.00000000000001]. *)
Definition literal_0_05 : float := 0x1.999999999999ap-5%float.
Definition literal_0_10 : float := 0x1.999999999999ap-4%float.


(** [SimpleSignalGenerator(stop_loss_pct=0.05, take_profit_pct=0.10)] *)
Definition with_defaults : Generator :=
  {| stop_loss_pct := literal_0_05; take_profit_pct := literal_0_10 |}.

(** [a / b] on Python floats: a zero divisor (of either sign) raises. *)
Definition truediv (a b : float) : result float :=
  if PrimFloat.eqb b 0%float then Raise ZeroDivisionError
  else Ok (a / b)%float.

Definition _create_buy_signal (self : Generator) (date : Timestamp)
    (price : float) (symbol : string) : result Signal :=
  let stop_loss := (price * (1 - stop_loss_pct self))%float in
  let take_profit := (price * (1 + take_profit_pct self))%float in
  ratio ← truediv (take_profit_pct self) (stop_loss_pct self);
  Ok {| date := date;
        symbol := symbol;
        type := "BUY";
        price := price;
        stop_loss := Some stop_loss;
        take_profit := Some take_profit;
        risk_reward_ratio := Some ratio;
        reason := "SMA 20 crossed above SMA 50" |}.


End Binary64.

(** * Properties *)

(** ** Comparisons and division *)

Section numbers.

Lemma lt_spec (a b : Q) : lt a b = true ↔ (a < b)%Q.
Proof.
  unfold lt. rewrite negb_true_iff, <- not_true_iff_false, Qle_bool_iff.
  split; [apply Qnot_le_lt | apply Qlt_not_le].
Qed.

Lemma le_spec (a b : Q) : le a b = true ↔ (a <= b)%Q.
Proof. apply Qle_bool_iff. Qed.

Lemma gt_spec (a b : Q) : gt a b = true ↔ (b < a)%Q.
Proof. apply lt_spec. Qed.

Lemma ge_spec (a b : Q) : ge a b = true ↔ (b <= a)%Q.
Proof. apply le_spec. Qed.

Lemma truediv_nonzero (a b : Q) :
  ¬ (b == 0)%Q → truediv a b = Ok (a / b)%Q.
Proof.
  intros Hb. unfold truediv.
  destruct (Qeq_bool b 0) eqn:E; [|done].
  apply Qeq_bool_iff in E. contradiction.
Qed.

End numbers.

(** ** Rolling means *)

Section rolling.

Lemma length_rolling_mean w xs : length (rolling_mean w xs) = length xs.
Proof. apply length_imap. Qed.

(** A full window read with [take]/[drop] is the list of the [w] closes at
    indices [lo .. lo+w-1]. *)
Lemma window_indices (xs : list Q) (lo w : nat) :
  (lo + w ≤ length xs)%nat →
  take w (drop lo xs) = (λ j, nth j xs 0%Q) <$> seq lo w.
Proof.
  intros Hlen. apply list_eq. intros k.
  destruct (decide (k < w)%nat) as [Hk|Hk].
  - rewrite lookup_take_lt, lookup_drop by done.
    rewrite list_lookup_fmap, lookup_seq_lt by done. simpl.
    destruct (nth_lookup_or_length xs (lo + k) 0%Q) as [->|?]; [done|lia].
  - rewrite lookup_take_ge by lia.
    rewrite list_lookup_fmap, lookup_seq_ge by lia. done.
Qed.

Lemma rolling_mean_lookup (w : nat) (xs : list Q) (i : nat) :
  (0 < w)%nat → (i < length xs)%nat →
  rolling_mean w xs !! i =
    Some (if bool_decide (w - 1 ≤ i)%nat
          then Some (mean_over xs (i + 1 - w) w) else None).
Proof.
  intros Hw Hi. unfold rolling_mean. rewrite list_lookup_imap.
  destruct (lookup_lt_is_Some_2 xs i Hi) as [x ->]. simpl. f_equal.
  repeat case_bool_decide; try lia; [|done].
  unfold mean_over. rewrite window_indices by lia. done.
Qed.

Lemma rolling_mean_undefined (w : nat) (xs : list Q) (i : nat) :
  (i + 1 < w)%nat → (i < length xs)%nat →
  rolling_mean w xs !! i = Some None.
Proof.
  intros Hw Hi. rewrite rolling_mean_lookup by lia.
  by rewrite bool_decide_eq_false_2 by lia.
Qed.

End rolling.

(** ** IndicatorEngine: [add_moving_averages] *)

Section indicators.

Lemma sma_name_inj (w1 w2 : nat) : sma_name w1 = sma_name w2 → w1 = w2.
Proof.
  unfold sma_name. intros H. apply (inj (String.app "SMA_")) in H.
  by apply (inj pretty) in H.
Qed.

Lemma add_moving_averages_nonempty data short_window long_window :
  len data ≠ 0%nat →
  add_moving_averages (Some data) short_window long_window
  = Some (with_averages data short_window long_window).
Proof.
  intros Hlen. unfold add_moving_averages, empty.
  by rewrite bool_decide_eq_false_2.
Qed.

Lemma with_averages_long data short_window long_window :
  columns (with_averages data short_window long_window)
    !! sma_name long_window
  = Some (rolling_mean long_window (Close data)).
Proof. simpl. apply lookup_insert_eq. Qed.

Lemma with_averages_short data short_window long_window :
  short_window ≠ long_window →
  columns (with_averages data short_window long_window)
    !! sma_name short_window
  = Some (rolling_mean short_window (Close data)).
Proof.
  intros Hne. simpl. rewrite lookup_insert_ne, lookup_insert_eq; [done|].
  intros H. apply sma_name_inj in H. congruence.
Qed.

Lemma with_averages_wf data short_window long_window :
  wf data → wf (with_averages data short_window long_window).
Proof.
  intros [Hc Hcols]. split; [done|]. intros name col. simpl.
  unfold len in *. simpl.
  rewrite !lookup_insert. repeat case_decide; intros Hcol; simplify_eq;
    rewrite ?length_rolling_mean; eauto.
Qed.

(** What one averaged column holds at bar [i]. *)
Lemma averaged_cell (closes : list Q) (w i : nat) :
  (0 < w)%nat → (i < length closes)%nat →
  ∃ c, rolling_mean w closes !! i = Some c ∧
       (is_Some c ↔ (w - 1 ≤ i)%nat) ∧
       (∀ v, c = Some v → (v == mean_over closes (i + 1 - w) w)%Q).
Proof.
  intros Hw Hi. eexists. split; [by apply rolling_mean_lookup|].
  case_bool_decide; split.
  - split; [done | by eexists].
  - by intros v [= <-].
  - split; [by intros [? [=]] | done].
  - by intros v [=].
Qed.

End indicators.

Section indicator_engine.

Lemma wf_without_columns (idx : list Timestamp) (closes : list Q) :
  length closes = length idx →
  wf {| index := idx; Close := closes; columns := ∅ |}.
Proof.
  intros Hlen. split; [done|]. intros name col. simpl.
  by rewrite lookup_empty.
Qed.

Lemma cell_averaged data short_window long_window w i :
  columns (with_averages data short_window long_window) !! sma_name w
  = Some (rolling_mean w (Close data)) →
  cell (with_averages data short_window long_window) (sma_name w) i
  = rolling_mean w (Close data) !! i.
Proof. intros H. unfold cell. by rewrite H. Qed.

(** C2.  For a non-empty price frame and windows [0 < fastWindow <
    slowWindow], [add_moving_averages] returns a frame in which, at every
    bar [i], the fast average is defined exactly when [i >= fastWindow - 1]
    and is then the arithmetic mean of the closes at indices
    [i-fastWindow+1 .. i]; likewise for the slow average.  On the closes
    [10, 12, ..., 28] with windows 3 and 5 the fast average at index 4
    is 16. *)
Theorem add_moving_averages_defined_mean
    (data : DataFrame) (fastWindow slowWindow : nat) :
  wf data → len data ≠ 0%nat →
  (0 < fastWindow)%nat → (fastWindow < slowWindow)%nat →
  (∃ df, add_moving_averages (Some data) fastWindow slowWindow = Some df ∧
     ∀ i, (i < len data)%nat →
       (∃ fast_ma, cell df (sma_name fastWindow) i = Some fast_ma ∧
          (is_Some fast_ma ↔ (fastWindow - 1 ≤ i)%nat) ∧
          ∀ v, fast_ma = Some v →
            (v == mean_over (Close data) (i + 1 - fastWindow) fastWindow)%Q)
       ∧
       (∃ slow_ma, cell df (sma_name slowWindow) i = Some slow_ma ∧
          (is_Some slow_ma ↔ (slowWindow - 1 ≤ i)%nat) ∧
          ∀ v, slow_ma = Some v →
            (v == mean_over (Close data) (i + 1 - slowWindow) slowWindow)%Q))
  ∧
  (∃ df v, add_moving_averages (Some test_data) 3 5 = Some df ∧
     cell df "SMA_3" 4 = Some (Some v) ∧ (v == 16)%Q).
Proof.
  intros [Hclose _] Hlen Hfast Hlt. split.
  - exists (with_averages data fastWindow slowWindow).
    split; [by apply add_moving_averages_nonempty|].
    intros i Hi. split.
    + rewrite cell_averaged by (apply with_averages_short; lia).
      apply averaged_cell; [done | by rewrite Hclose].
    + rewrite cell_averaged by apply with_averages_long.
      apply averaged_cell; [lia | by rewrite Hclose].
  - eexists _, _. split; [reflexivity|]. split; [vm_compute; reflexivity|].
    reflexivity.
Qed.

Lemma add_moving_averages_defined_mean_witness :
  ∃ df, add_moving_averages (Some test_data) 3 5 = Some df ∧
    ∃ fast_ma, cell df (sma_name 3) 4 = Some fast_ma ∧
      (is_Some fast_ma ↔ (3 - 1 ≤ 4)%nat) ∧
      ∀ v, fast_ma = Some v →
        (v == mean_over (Close test_data) (4 + 1 - 3) 3)%Q.
Proof.
  destruct (add_moving_averages_defined_mean test_data 3 5) as [H _].
  - by apply wf_without_columns.
  - vm_compute. discriminate.
  - lia.
  - lia.
  - destruct H as (df & Hdf & Hcells). exists df. split; [exact Hdf|].
    destruct (Hcells 4%nat) as [Hfast _]; [vm_compute; lia|]. exact Hfast.
Defined.

End indicator_engine.

(** ** SignalDetector: the loop of [find_crossover_signals] *)

Section loop.

(** Invariant rule for [for_each]: an invariant [I] over the processed
    prefix that every iteration re-establishes without raising holds of the
    result, and the loop returns. *)
Lemma for_each_invariant {A S} (body : S → A → result S)
    (I : list A → S → Prop) (xs : list A) (acc0 : S) :
  I [] acc0 →
  (∀ pre x post acc, xs = pre ++ x :: post → I pre acc →
     ∃ acc', body acc x = Ok acc' ∧ I (pre ++ [x]) acc') →
  ∃ out, for_each body xs acc0 = Ok out ∧ I xs out.
Proof.
  intros Hinit Hstep.
  cut (∀ post pre acc, xs = pre ++ post → I pre acc →
         ∃ out, for_each body post acc = Ok out ∧ I xs out).
  { intros Hgen. by apply (Hgen xs [] acc0). }
  induction post as [|x post IH]; intros pre acc Hxs Hpre; simpl.
  - rewrite app_nil_r in Hxs. subst. eauto.
  - destruct (Hstep pre x post acc Hxs Hpre) as (acc' & -> & Hacc'). simpl.
    apply (IH (pre ++ [x])); [|done]. by rewrite <- app_assoc.
Qed.

(** Position of an element of [range 1 n] split off its prefix. *)
Lemma range_split (n : nat) (pre post : list nat) (x : nat) :
  range 1 n = pre ++ x :: post →
  x = S (length pre) ∧ (x < n)%nat ∧ pre = range 1 x.
Proof.
  unfold range. intros Hsplit.
  assert (seq 1 (n - 1) !! length pre = Some x) as Hx.
  { rewrite Hsplit. by rewrite list_lookup_middle. }
  apply lookup_seq in Hx as [-> Hlt]. split; [done|]. split; [lia|].
  apply (f_equal (take (length pre))) in Hsplit.
  rewrite take_app_length, take_seq in Hsplit.
  etrans; [symmetry; exact Hsplit|]. f_equal. lia.
Qed.

End loop.

Section detector.

Context (self : SimpleSignalGenerator.t) (df : DataFrame) (symbol : string).

Lemma ma_column (name : string) (col : list (option Q)) (i : nat) :
  columns df !! name = Some col → ma df name i = mjoin (col !! i).
Proof. intros H. unfold ma, cell. by rewrite H. Qed.

Lemma ma_no_column (name : string) (i : nat) :
  columns df !! name = None → ma df name i = None.
Proof. intros H. unfold ma, cell. by rewrite H. Qed.

Lemma iloc_in_range {A} (col : list A) (i : nat) :
  (i < length col)%nat → ∃ x, col !! i = Some x ∧ iloc col i = Ok x.
Proof.
  intros Hi. destruct (lookup_lt_is_Some_2 col i Hi) as [x Hx].
  exists x. unfold iloc. by rewrite Hx.
Qed.

Lemma create_buy_signal_returns (d : Timestamp) (p : Q) :
  ¬ (stop_loss_pct self == 0)%Q →
  ∃ s, _create_buy_signal self d p symbol = Ok s.
Proof.
  intros Hpct. unfold _create_buy_signal.
  rewrite truediv_nonzero by done. simpl. eauto.
Qed.

(** One iteration on an in-range bar: it does not raise; it appends the
    signal of the crossover at that bar if there is one and leaves the list
    alone otherwise. *)
Lemma crossover_step_spec (SMA_20 SMA_50 : list (option Q))
    (signals : list Signal.t) (i : nat) :
  wf df →
  (crossover df i = Some "BUY" → ¬ (stop_loss_pct self == 0)%Q) →
  columns df !! "SMA_20" = Some SMA_20 →
  columns df !! "SMA_50" = Some SMA_50 →
  (1 ≤ i < len df)%nat →
  ∃ acc', crossover_step self df SMA_20 SMA_50 symbol signals i = Ok acc' ∧
    match crossover df i with
    | Some _ => ∃ s, acc' = signals ++ [s] ∧ emitted_at self df symbol i s
    | None => acc' = signals
    end.
Proof.
  intros [Hclose Hcols] Hpct H20 H50 Hi.
  pose proof (Hcols _ _ H20) as Hl20. pose proof (Hcols _ _ H50) as Hl50.
  unfold len in *.
  destruct (iloc_in_range (index df) i) as (d & Hd & Ed); [lia|].
  destruct (iloc_in_range (Close df) i) as (p & Hp & Ep); [lia|].
  destruct (iloc_in_range SMA_20 i) as (f1 & Hf1 & Ef1); [lia|].
  destruct (iloc_in_range SMA_50 i) as (s1 & Hs1 & Es1); [lia|].
  destruct (iloc_in_range SMA_20 (i - 1)) as (f0 & Hf0 & Ef0); [lia|].
  destruct (iloc_in_range SMA_50 (i - 1)) as (s0 & Hs0 & Es0); [lia|].
  unfold crossover_step. unfold crossover at 1. revert Hpct.
  rewrite Ed, Ep, Ef1, Es1, Ef0, Es0. simpl.
  rewrite !(ma_column _ _ _ H20), !(ma_column _ _ _ H50).
  rewrite Hf1, Hs1, Hf0, Hs0. simpl.
  destruct f1 as [f1|], s1 as [s1|], f0 as [f0|], s0 as [s0|];
    simpl; eauto.
  destruct (le f0 s0 && gt f1 s1) eqn:Ebuy; intros Hpct.
  - assert (crossover df i = Some "BUY") as Hc.
    { unfold crossover.
      rewrite !(ma_column _ _ _ H20), !(ma_column _ _ _ H50).
      rewrite Hf1, Hs1, Hf0, Hs0. simpl. by rewrite Ebuy. }
    destruct (create_buy_signal_returns d p (Hpct Hc)) as [s Hs].
    rewrite Hs. simpl. eexists. split; [done|]. exists s. split; [done|].
    exists d, p. repeat split; try done. by left.
  - destruct (ge f0 s0 && lt f1 s1) eqn:Esell; [|eauto].
    eexists. split; [done|]. eexists. split; [done|].
    exists d, p. repeat split; try done. right.
    unfold crossover. rewrite !(ma_column _ _ _ H20), !(ma_column _ _ _ H50).
    rewrite Hf1, Hs1, Hf0, Hs0. simpl. by rewrite Ebuy, Esell.
Qed.

(** The crossover bars of a frame, in order. *)
Lemma crossover_bars_snoc (n : nat) :
  filter (λ i, is_Some (crossover df i)) (range 1 n ++ [n])
  = filter (λ i, is_Some (crossover df i)) (range 1 n)
    ++ match crossover df n with Some _ => [n] | None => [] end.
Proof.
  rewrite filter_app. f_equal. rewrite filter_singleton; [|exact []].
  destruct (crossover df n); case_decide as H; try done.
  destruct H. by eexists.
Qed.

End detector.

Section detector_result.

Context (self : SimpleSignalGenerator.t) (df : DataFrame) (symbol : string).
Hypothesis Hwf : wf df.
(** A zero stop-loss percentage only matters where a BUY is created. *)
Hypothesis Hpct :
  ∀ i, crossover df i = Some "BUY" → ¬ (stop_loss_pct self == 0)%Q.

(** The loop returns, one signal per crossover bar, in bar order. *)
Lemma crossover_loop_spec (SMA_20 SMA_50 : list (option Q)) :
  columns df !! "SMA_20" = Some SMA_20 →
  columns df !! "SMA_50" = Some SMA_50 →
  ∃ out,
    for_each (crossover_step self df SMA_20 SMA_50 symbol)
      (range 1 (len df)) [] = Ok out ∧
    Forall2 (emitted_at self df symbol) (crossover_bars df) out.
Proof.
  intros H20 H50. unfold crossover_bars.
  apply (for_each_invariant _
           (λ pre acc, Forall2 (emitted_at self df symbol)
                         (filter (λ i, is_Some (crossover df i)) pre) acc)).
  { constructor. }
  intros pre x post acc Hsplit Hacc.
  apply range_split in Hsplit as (Hx & Hlt & ->).
  destruct (crossover_step_spec self df symbol SMA_20 SMA_50 acc x)
    as (acc' & Hstep & Hacc'); [done|apply Hpct|done|done|lia|].
  exists acc'. split; [done|]. rewrite crossover_bars_snoc.
  destruct (crossover df x) as [ty|].
  - destruct Hacc' as (sig & -> & Hsig). apply Forall2_app; [done|].
    by repeat constructor.
  - subst acc'. by rewrite app_nil_r.
Qed.

Lemma no_column_no_crossover :
  columns df !! "SMA_20" = None ∨ columns df !! "SMA_50" = None →
  crossover_bars df = [].
Proof.
  intros Hnone. unfold crossover_bars.
  induction (range 1 (len df)) as [|i l IH]; [done|].
  rewrite filter_cons_False; [done|]. intros [ty Hty].
  unfold crossover in Hty.
  destruct Hnone as [H|H]; rewrite !(ma_no_column _ _ _ H) in Hty;
    [done|]. by destruct (ma df "SMA_20" (i - 1)).
Qed.

(** [find_crossover_signals] returns; below 51 bars the result is empty,
    from 51 bars on it holds one signal per crossover bar, in bar order. *)
Lemma find_crossover_signals_spec :
  ∃ out, find_crossover_signals self (Some df) symbol = Ok out ∧
    Forall2 (emitted_at self df symbol)
      (if bool_decide (len df < 51)%nat then [] else crossover_bars df) out.
Proof.
  unfold find_crossover_signals. case_bool_decide.
  { exists []. split; [done|constructor]. }
  destruct (columns df !! "SMA_20") as [SMA_20|] eqn:H20.
  - destruct (columns df !! "SMA_50") as [SMA_50|] eqn:H50.
    + by apply crossover_loop_spec.
    + exists []. split; [done|]. rewrite no_column_no_crossover by eauto.
      constructor.
  - exists []. split; [done|]. rewrite no_column_no_crossover by eauto.
    constructor.
Qed.

(** On a frame with the warm-up of the slow average the length guard
    drops nothing. *)
Lemma warmup_short_no_crossover :
  slow_warmup df → (len df < 51)%nat → crossover_bars df = [].
Proof.
  intros Hwarm Hlen. unfold crossover_bars.
  assert (Forall (λ i, i < 50)%nat (range 1 (len df))) as Hall.
  { apply Forall_forall. intros i Hi. unfold range in Hi.
    apply elem_of_seq in Hi. lia. }
  induction Hall as [|i l Hi _ IH]; [done|].
  rewrite filter_cons_False; [done|]. intros [ty Hty].
  unfold crossover in Hty. rewrite (Hwarm (i - 1)%nat) in Hty by lia.
  by destruct (ma df "SMA_20" (i - 1)).
Qed.

Lemma find_crossover_signals_warm :
  slow_warmup df →
  ∃ out, find_crossover_signals self (Some df) symbol = Ok out ∧
    Forall2 (emitted_at self df symbol) (crossover_bars df) out.
Proof.
  intros Hwarm. destruct find_crossover_signals_spec as (out & Hout & Hall).
  exists out. split; [done|]. case_bool_decide; [|done].
  by rewrite warmup_short_no_crossover.
Qed.

End detector_result.

(** ** Order *)

Section order.

Context {A : Type} (R : relation A).

Lemma StronglySorted_lookup (l : list A) (i j : nat) (a b : A) :
  StronglySorted R l → l !! i = Some a → l !! j = Some b →
  (i < j)%nat → R a b.
Proof.
  intros Hsorted Hi Hj Hlt. rewrite <- (take_drop j l) in Hsorted.
  apply (StronglySorted_app_1_elem_of _ _ _ _ _ Hsorted).
  - apply list_elem_of_lookup. exists i. by rewrite lookup_take_lt.
  - apply list_elem_of_lookup. exists 0%nat.
    by rewrite lookup_drop, Nat.add_0_r.
Qed.

Lemma StronglySorted_filter (P : A → Prop) `{!∀ x, Decision (P x)}
    (l : list A) :
  StronglySorted R l → StronglySorted R (filter P l).
Proof.
  induction 1 as [|x l Hl IH Hx]; [constructor|].
  rewrite filter_cons. case_decide; [|done].
  constructor; [done|]. apply Forall_forall. intros y Hy.
  apply list_elem_of_filter in Hy as [_ Hy].
  by apply (proj1 (Forall_forall _ _) Hx).
Qed.

(** A list related element-wise to a sorted list is sorted, when the
    relation carries the order across. *)
Lemma StronglySorted_Forall2 {B} (R' : relation B) (Q : A → B → Prop)
    (l : list A) (k : list B) :
  (∀ a a' b b', Q a b → Q a' b' → R a a' → R' b b') →
  Forall2 Q l k → StronglySorted R l → StronglySorted R' k.
Proof.
  intros Hmono Hall. induction Hall as [|a b l k Hab Hlk IH];
    intros Hsorted; [constructor|].
  apply StronglySorted_cons in Hsorted as [Ha Hl].
  constructor; [by apply IH|].
  apply Forall_forall. intros b' Hb'.
  apply list_elem_of_lookup in Hb' as [n Hn].
  destruct (Forall2_lookup_r _ _ _ _ _ Hlk Hn) as (a' & Ha' & Hq).
  apply (Hmono a a' b b'); [done..|].
  apply (proj1 (Forall_forall _ _) Ha). by eapply list_elem_of_lookup_2.
Qed.

End order.

Lemma StronglySorted_seq (start n : nat) : StronglySorted Nat.lt (seq start n).
Proof.
  revert start. induction n as [|n IH]; intros start; simpl; [constructor|].
  constructor; [apply IH|]. apply Forall_forall. intros j Hj.
  apply elem_of_seq in Hj. lia.
Qed.

(** ** SignalDetector: crossover completeness *)

Section crossovers.

Context (self : SimpleSignalGenerator.t) (df : DataFrame) (symbol : string).

(** With both averages defined on both days, [crossover] is the
    specification's pair of sign-change conditions. *)
Lemma crossover_defined (i : nat) (f0 s0 f1 s1 : Q) :
  ma df "SMA_20" (i - 1) = Some f0 → ma df "SMA_50" (i - 1) = Some s0 →
  ma df "SMA_20" i = Some f1 → ma df "SMA_50" i = Some s1 →
  (∀ ty, crossover df i = Some ty →
     (ty = "BUY" ↔ (f0 <= s0 ∧ s1 < f1)%Q) ∧
     (ty = "SELL" ↔ (s0 <= f0 ∧ f1 < s1)%Q)) ∧
  (is_Some (crossover df i) ↔
     (f0 <= s0 ∧ s1 < f1)%Q ∨ (s0 <= f0 ∧ f1 < s1)%Q).
Proof.
  intros Hf0 Hs0 Hf1 Hs1. unfold crossover.
  rewrite Hf0, Hs0, Hf1, Hs1.
  destruct (le f0 s0 && gt f1 s1) eqn:Ebuy;
    [|destruct (ge f0 s0 && lt f1 s1) eqn:Esell].
  - apply andb_true_iff in Ebuy as [H1%le_spec H2%gt_spec].
    split; [|by split; eauto].
    intros ty [= <-]. split; [done|]. split; [done|].
    intros [_ Hlt]. exfalso. apply (Qlt_irrefl f1).
    by apply Qlt_trans with s1.
  - apply andb_true_iff in Esell as [H1%ge_spec H2%lt_spec].
    split; [|by split; eauto].
    intros ty [= <-]. split; [|done]. split; [done|].
    intros [_ Hlt]. exfalso. apply (Qlt_irrefl f1).
    by apply Qlt_trans with s1.
  - split; [done|]. split; [by intros [? [=]]|].
    apply andb_false_iff in Ebuy, Esell.
    rewrite <- !not_true_iff_false in Ebuy, Esell.
    rewrite le_spec, gt_spec in Ebuy. rewrite ge_spec, lt_spec in Esell.
    tauto.
Qed.

Lemma crossover_undefined (i : nat) :
  ma df "SMA_20" (i - 1) = None ∨ ma df "SMA_50" (i - 1) = None ∨
  ma df "SMA_20" i = None ∨ ma df "SMA_50" i = None →
  crossover df i = None.
Proof.
  unfold crossover. intros [H|[H|[H|H]]]; rewrite H;
    repeat (first [done | case_match]).
Qed.

(** An emitted signal carries the date of its bar and the kind of the
    crossover there. *)
Lemma emitted_at_date_type (i : nat) (s : Signal.t) :
  emitted_at self df symbol i s →
  index df !! i = Some (Signal.date s) ∧
  crossover df i = Some (Signal.type s).
Proof.
  intros (d & p & Hd & _ & [[Hty Hs]|[Hty ->]]); [|done].
  unfold _create_buy_signal in Hs.
  destruct (truediv _ _); [|done]. simpl in Hs. by injection Hs as <-.
Qed.

Lemma crossover_bars_sorted : StronglySorted Nat.lt (crossover_bars df).
Proof. apply StronglySorted_filter, StronglySorted_seq. Qed.

Lemma elem_of_crossover_bars (i : nat) :
  i ∈ crossover_bars df ↔
  is_Some (crossover df i) ∧ (1 ≤ i < len df)%nat.
Proof.
  unfold crossover_bars, range. rewrite list_elem_of_filter, elem_of_seq.
  split; intros [? ?]; (split; [done|lia]).
Qed.

Lemma ascending_index_inj (i j : nat) (d : Timestamp) :
  ascending (index df) →
  index df !! i = Some d → index df !! j = Some d → i = j.
Proof.
  intros Hasc Hi Hj.
  destruct (Nat.lt_trichotomy i j) as [Hlt|[->|Hlt]]; [|done|].
  - pose proof (StronglySorted_lookup _ _ _ _ _ _ Hasc Hi Hj Hlt). lia.
  - pose proof (StronglySorted_lookup _ _ _ _ _ _ Hasc Hj Hi Hlt). lia.
Qed.

End crossovers.

Section crossover_completeness.

Context (self : SimpleSignalGenerator.t) (df : DataFrame) (symbol : string).

(** C1.  On an indicator-augmented frame (columns as long as the index,
    strictly increasing dates, slow average undefined during its warm-up)
    [find_crossover_signals] returns a list [signals] such that, for every
    pair of consecutive bars [i-1], [i]: when the fast (SMA_20) and slow
    (SMA_50) averages are defined on both days, a signal dated at bar [i]
    is in [signals] if and only if [fast[i-1] <= slow[i-1]] and
    [fast[i] > slow[i]] (it is then a BUY) or [fast[i-1] >= slow[i-1]] and
    [fast[i] < slow[i]] (it is then a SELL); when an average is undefined
    on either day no signal is dated at bar [i]; no two signals share a
    bar; and the signals are in ascending date order. *)
Theorem find_crossover_signals_complete :
  wf df → ascending (index df) → slow_warmup df →
  ¬ (stop_loss_pct self == 0)%Q →
  ∃ signals, find_crossover_signals self (Some df) symbol = Ok signals ∧
    (∀ i d, (1 ≤ i < len df)%nat → index df !! i = Some d →
       match ma df "SMA_20" (i - 1), ma df "SMA_50" (i - 1),
             ma df "SMA_20" i, ma df "SMA_50" i with
       | Some f0, Some s0, Some f1, Some s1 =>
           ((∃ s, s ∈ signals ∧ Signal.date s = d) ↔
              (f0 <= s0 ∧ s1 < f1)%Q ∨ (s0 <= f0 ∧ f1 < s1)%Q) ∧
           (∀ s, s ∈ signals → Signal.date s = d →
              (Signal.type s = "BUY" ↔ (f0 <= s0 ∧ s1 < f1)%Q) ∧
              (Signal.type s = "SELL" ↔ (s0 <= f0 ∧ f1 < s1)%Q))
       | _, _, _, _ => ∀ s, s ∈ signals → Signal.date s ≠ d
       end) ∧
    (∀ j k s s', signals !! j = Some s → signals !! k = Some s' →
       Signal.date s = Signal.date s' → j = k) ∧
    ascending (Signal.date <$> signals).
Proof.
  intros Hwf Hasc Hwarm Hpct.
  destruct (find_crossover_signals_warm self df symbol Hwf
              (λ _ _, Hpct) Hwarm) as (out & Hout & Hall).
  exists out. split; [done|].
  assert (ascending (Signal.date <$> out)) as Hsorted.
  { apply (StronglySorted_Forall2 Nat.lt Z.lt
             (λ i d, index df !! i = Some d) (crossover_bars df)).
    - intros a a' b b' Ha Ha' Hlt.
      by eapply (StronglySorted_lookup Z.lt (index df) a a').
    - apply Forall2_fmap_r. eapply Forall2_impl; [exact Hall|].
      intros i s He. by apply emitted_at_date_type in He as [? _].
    - apply crossover_bars_sorted. }
  split; [|split; [|done]].
  - intros i d Hi Hd.
    assert (∀ s, s ∈ out → Signal.date s = d →
                 crossover df i = Some (Signal.type s)) as Hmem.
    { intros s Hs Hdate. apply list_elem_of_lookup in Hs as [n Hn].
      destruct (Forall2_lookup_r _ _ _ _ _ Hall Hn) as (j & Hj & He).
      apply emitted_at_date_type in He as [Hdj Hty].
      rewrite Hdate in Hdj. by rewrite (ascending_index_inj df i j d). }
    assert (is_Some (crossover df i) →
            ∃ s, s ∈ out ∧ Signal.date s = d) as Hex.
    { intros Hc.
      assert (i ∈ crossover_bars df) as Hbar
        by by apply elem_of_crossover_bars.
      apply list_elem_of_lookup in Hbar as [n Hn].
      destruct (Forall2_lookup_l _ _ _ _ _ Hall Hn) as (s & Hs & He).
      exists s. split; [by eapply list_elem_of_lookup_2|].
      apply emitted_at_date_type in He as [Hdi _]. congruence. }
    destruct (ma df "SMA_20" (i - 1)) as [f0|] eqn:E1;
      [destruct (ma df "SMA_50" (i - 1)) as [s0|] eqn:E2;
       [destruct (ma df "SMA_20" i) as [f1|] eqn:E3;
        [destruct (ma df "SMA_50" i) as [s1|] eqn:E4|]|]|].
    + destruct (crossover_defined df i _ _ _ _ E1 E2 E3 E4) as [Hty Hsome].
      split.
      * rewrite <- Hsome. split; [|apply Hex].
        intros (s & Hs & Hds). rewrite (Hmem s Hs Hds). by eexists.
      * intros s Hs Hds. apply Hty. by apply Hmem.
    + intros s Hs Hds. pose proof (Hmem s Hs Hds) as Hc.
      rewrite crossover_undefined in Hc by eauto. done.
    + intros s Hs Hds. pose proof (Hmem s Hs Hds) as Hc.
      rewrite crossover_undefined in Hc by eauto. done.
    + intros s Hs Hds. pose proof (Hmem s Hs Hds) as Hc.
      rewrite crossover_undefined in Hc by eauto. done.
    + intros s Hs Hds. pose proof (Hmem s Hs Hds) as Hc.
      rewrite crossover_undefined in Hc by eauto. done.
  - intros j k s s' Hj Hk Heq.
    assert ((Signal.date <$> out) !! j = Some (Signal.date s)) as Hj'
      by by rewrite list_lookup_fmap, Hj.
    assert ((Signal.date <$> out) !! k = Some (Signal.date s')) as Hk'
      by by rewrite list_lookup_fmap, Hk.
    destruct (Nat.lt_trichotomy j k) as [Hlt|[->|Hlt]]; [|done|].
    + pose proof (StronglySorted_lookup _ _ _ _ _ _ Hsorted Hj' Hk' Hlt).
      lia.
    + pose proof (StronglySorted_lookup _ _ _ _ _ _ Hsorted Hk' Hj' Hlt).
      lia.
Qed.

End crossover_completeness.

Section indicator_frames.

(** Frames built with the default windows have the warm-up of the slow
    average. *)
Lemma with_averages_warmup (data : DataFrame) (short_window : nat) :
  slow_warmup (with_averages data short_window 50).
Proof.
  intros i Hi.
  rewrite (ma_column _ "SMA_50" (rolling_mean 50 (Close data)))
    by apply (with_averages_long data short_window 50).
  destruct (decide (i < length (Close data))%nat) as [Hlt|Hge].
  - by rewrite rolling_mean_undefined by lia.
  - rewrite lookup_ge_None_2; [done|]. rewrite length_rolling_mean. lia.
Qed.

Lemma daily_wf (closes : list Q) : wf (daily closes).
Proof.
  apply wf_without_columns. by rewrite length_fmap, length_seq.
Qed.

Lemma crossing_frame_wf : wf crossing_frame.
Proof. apply with_averages_wf, daily_wf. Qed.

Lemma default_stop_loss_pct_nonzero :
  ¬ (stop_loss_pct with_defaults == 0)%Q.
Proof. by vm_compute. Qed.

End indicator_frames.

Lemma find_crossover_signals_complete_witness :
  ∃ signals,
    find_crossover_signals with_defaults (Some crossing_frame) "TEST"
    = Ok signals ∧
    (∃ s, s ∈ signals ∧ Signal.date s = (55 * ns_per_day)%Z) ∧
    ascending (Signal.date <$> signals).
Proof.
  destruct (find_crossover_signals_complete with_defaults crossing_frame
              "TEST") as (signals & Hsignals & Hbars & _ & Hasc).
  - apply crossing_frame_wf.
  - apply (bool_decide_unpack _). by vm_compute.
  - apply with_averages_warmup.
  - apply default_stop_loss_pct_nonzero.
  - exists signals. split; [exact Hsignals|]. split; [|exact Hasc].
    specialize (Hbars 55%nat (55 * ns_per_day)%Z).
    vm_compute in Hbars. apply Hbars; try done.
    + split; [lia|]. vm_compute. lia.
    + left. by vm_compute.
Defined.

(** ** Risk levels of BUY signals *)

Section levels.


End levels.



(** ** PerformanceEvaluator: [analyze_signal_performance] *)

Section performance.

Context (self : SimpleSignalGenerator.t) (now : Timestamp).

(** C3.  For a BUY signal with its two levels and a non-zero entry price,
    evaluated against [current_price]:
    [current_return_pct = (current_price - price) / price * 100], and the
    status/outcome pair is TARGET HIT/WIN when
    [current_price >= take_profit], else STOPPED OUT/LOSS when
    [current_price <= stop_loss], else ACTIVE/PENDING.  With entry 100,
    stop 95 and target 110 the prices 110, 95 and 102 give these three
    pairs in turn. *)
Theorem analyze_signal_performance_buy
    (signal : Signal.t) (current_price stop_loss take_profit : Q) :
  Signal.type signal = "BUY" →
  Signal.stop_loss signal = Some stop_loss →
  Signal.take_profit signal = Some take_profit →
  ¬ (Signal.price signal == 0)%Q →
  (∃ p, analyze_signal_performance self now signal current_price
        = Ok (performance p) ∧
     Performance.entry_price p = Signal.price signal ∧
     Performance.current_price p = current_price ∧
     (Performance.current_return_pct p ==
        (current_price - Signal.price signal) / Signal.price signal * 100)%Q
     ∧
     ((take_profit <= current_price)%Q →
        Performance.status p = "🎯 TARGET HIT" ∧
        Performance.outcome p = "WIN") ∧
     (¬ (take_profit <= current_price)%Q → (current_price <= stop_loss)%Q →
        Performance.status p = "🛑 STOPPED OUT" ∧
        Performance.outcome p = "LOSS") ∧
     (¬ (take_profit <= current_price)%Q →
      ¬ (current_price <= stop_loss)%Q →
        Performance.status p = "⏳ ACTIVE" ∧
        Performance.outcome p = "PENDING"))
  ∧
  (∃ p110 p95 p102,
     analyze_signal_performance self now test_signal 110
     = Ok (performance p110) ∧
     analyze_signal_performance self now test_signal 95
     = Ok (performance p95) ∧
     analyze_signal_performance self now test_signal 102
     = Ok (performance p102) ∧
     (Performance.status p110, Performance.outcome p110)
     = ("🎯 TARGET HIT", "WIN") ∧
     (Performance.status p95, Performance.outcome p95)
     = ("🛑 STOPPED OUT", "LOSS") ∧
     (Performance.status p102, Performance.outcome p102)
     = ("⏳ ACTIVE", "PENDING")).
Proof.
  intros Hbuy Hstop Htarget Hprice. split.
  - unfold analyze_signal_performance.
    rewrite bool_decide_eq_false_2 by (by intros []).
    rewrite truediv_nonzero by done. simpl.
    rewrite Hstop, Htarget. simpl.
    destruct (ge current_price take_profit) eqn:Ehit; simpl.
    + apply ge_spec in Ehit.
      eexists. split; [done|]. simpl. repeat split; try reflexivity; done.
    + apply not_true_iff_false in Ehit. rewrite ge_spec in Ehit.
      destruct (le current_price stop_loss) eqn:Estop; simpl.
      * apply le_spec in Estop.
        eexists. split; [done|]. simpl.
        repeat split; try reflexivity; done.
      * apply not_true_iff_false in Estop. rewrite le_spec in Estop.
        eexists. split; [done|]. simpl.
        repeat split; try reflexivity; done.
  - by eexists _, _, _.
Qed.

(** C7.  On a signal whose type is not BUY (a SELL signal in particular)
    the evaluation gives the error dictionary and no performance
    report. *)
Theorem analyze_signal_performance_not_buy
    (signal : Signal.t) (current_price : Q) :
  Signal.type signal ≠ "BUY" →
  analyze_signal_performance self now signal current_price
  = Ok (error "Performance analysis only for BUY signals") ∧
  ∀ p, analyze_signal_performance self now signal current_price
       ≠ Ok (performance p).
Proof.
  intros Hkind. unfold analyze_signal_performance.
  rewrite bool_decide_eq_true_2 by done. split; [done|]. by intros p.
Qed.

End performance.

Lemma analyze_signal_performance_buy_witness :
  ∃ p, analyze_signal_performance with_defaults (105 * ns_per_day)%Z
         test_signal 105 = Ok (performance p) ∧
       (Performance.current_return_pct p == 5)%Q ∧
       Performance.outcome p = "PENDING".
Proof.
  destruct (analyze_signal_performance_buy with_defaults (105 * ns_per_day)%Z
              test_signal 105 95 110) as [(p & Hp & _ & _ & Hret & _ & _ & Hact) _].
  - reflexivity.
  - reflexivity.
  - reflexivity.
  - by vm_compute.
  - exists p. split; [exact Hp|]. split.
    + rewrite Hret. reflexivity.
    + apply Hact; by vm_compute.
Defined.

Lemma analyze_signal_performance_not_buy_witness :
  analyze_signal_performance with_defaults (105 * ns_per_day)%Z
    sell_signal 105
  = Ok (error "Performance analysis only for BUY signals").
Proof.
  destruct (analyze_signal_performance_not_buy with_defaults
              (105 * ns_per_day)%Z sell_signal 105) as [H _].
  - by vm_compute.
  - exact H.
Defined.

(** ** TrendClassifier: the trend block of [analyze_stock] *)

Section trend.

Lemma as_http_500_Ok {A} (c : result A) (a : A) :
  as_http_500 c = Ok a → c = Ok a.
Proof. destruct c as [|[]]; simpl; congruence. Qed.

(** The response reports the classification of the latest bar. *)
Lemma analyze_stock_trend (fetched : option DataFrame) (symbol : string)
    (r : response) :
  analyze_stock fetched symbol = Ok r →
  ∃ data, fetched = Some data ∧
    iloc_last (Close data) = Ok (current_price r) ∧
    latest_get (with_averages data 20 50) "SMA_20" = Ok (sma_20 r) ∧
    latest_get (with_averages data 20 50) "SMA_50" = Ok (sma_50 r) ∧
    calculate_trend (current_price r) (sma_20 r) (sma_50 r)
    = Ok (trend r, trend_strength r).
Proof.
  unfold analyze_stock. intros H%as_http_500_Ok.
  destruct fetched as [data|]; [|done]. exists data. split; [done|].
  unfold add_moving_averages in H. destruct (empty data); [done|].
  fold (with_averages data 20 50) in H.
  destruct (find_crossover_signals _ _ _) as [signals|]; [|done].
  simpl in H.
  destruct (iloc_last (index _)) as [d|]; [|done]. simpl in H.
  destruct (latest_get _ "SMA_20") as [f|]; [|done]. simpl in H.
  destruct (latest_get _ "SMA_50") as [s|]; [|done]. simpl in H.
  destruct (iloc_last (Close data)) as [p|]; [|done]. simpl in H.
  destruct (calculate_trend p f s) as [[label strength]|] eqn:Et; [|done].
  simpl in H. by injection H as <-.
Qed.

(** C6.  With both averages defined at the latest bar (and a non-zero slow
    average [s]) the classification of close [p], fast [f] and slow [s] is:
    STRONG_BULLISH with strength [(f-s)/s*100] when [p > f > s];
    MIXED_BULLISH with [(s-f)/s*100] when [p > f] and [f < s];
    STRONG_BEARISH with [(s-f)/s*100] when [p < f < s]; MIXED_BEARISH with
    [(f-s)/s*100] in every other case.  With an average undefined it is
    INSUFFICIENT_DATA with strength 0.  [analyze_stock] reports this
    classification of its latest bar. *)
Theorem calculate_trend_partition (p f s : Q) :
  ¬ (s == 0)%Q →
  ((f < p ∧ s < f)%Q →
     calculate_trend p (Some f) (Some s)
     = Ok ("STRONG_BULLISH", ((f - s) / s * 100)%Q)) ∧
  ((f < p ∧ f < s)%Q →
     calculate_trend p (Some f) (Some s)
     = Ok ("MIXED_BULLISH", ((s - f) / s * 100)%Q)) ∧
  ((p < f ∧ f < s)%Q →
     calculate_trend p (Some f) (Some s)
     = Ok ("STRONG_BEARISH", ((s - f) / s * 100)%Q)) ∧
  (¬ (f < p ∧ s < f)%Q → ¬ (f < p ∧ f < s)%Q → ¬ (p < f ∧ f < s)%Q →
     calculate_trend p (Some f) (Some s)
     = Ok ("MIXED_BEARISH", ((f - s) / s * 100)%Q)) ∧
  (∀ sma_20 sma_50, sma_20 = None ∨ sma_50 = None →
     calculate_trend p sma_20 sma_50 = Ok ("INSUFFICIENT_DATA", 0%Q)) ∧
  (∀ fetched symbol r, analyze_stock fetched symbol = Ok r →
     calculate_trend (current_price r) (sma_20 r) (sma_50 r)
     = Ok (trend r, trend_strength r)).
Proof.
  intros Hs.
  assert (∀ b1 b2 P1 P2, (b1 = true ↔ P1) → (b2 = true ↔ P2) →
            (b1 && b2 = true ↔ P1 ∧ P2)) as Hand.
  { intros b1 b2 P1 P2 H1 H2. rewrite andb_true_iff. tauto. }
  pose proof (Hand _ _ _ _ (gt_spec p f) (gt_spec f s)) as H1.
  pose proof (Hand _ _ _ _ (gt_spec p f) (lt_spec f s)) as H2.
  pose proof (Hand _ _ _ _ (lt_spec p f) (lt_spec f s)) as H3.
  assert (∀ fetched symbol r, analyze_stock fetched symbol = Ok r →
            calculate_trend (current_price r) (sma_20 r) (sma_50 r)
            = Ok (trend r, trend_strength r)) as Hreport.
  { intros fetched symbol r Hr.
    by apply analyze_stock_trend in Hr as (? & _ & _ & _ & _ & ?). }
  assert (∀ sma_20 sma_50, sma_20 = None ∨ sma_50 = None →
            calculate_trend p sma_20 sma_50 = Ok ("INSUFFICIENT_DATA", 0%Q))
    as Hundef.
  { by intros ? ? [-> | ->]; [|unfold calculate_trend; case_match]. }
  unfold calculate_trend. rewrite !truediv_nonzero by done. simpl.
  destruct (gt p f && gt f s);
    [|destruct (gt p f && lt f s); [|destruct (lt p f && lt f s)]].
  - destruct (proj1 H1 eq_refl). repeat split; try done.
    + intros [_ ?]. exfalso. apply (Qlt_irrefl f). by apply Qlt_trans with s.
    + intros [? _]. exfalso. apply (Qlt_irrefl f). by apply Qlt_trans with p.
    + tauto.
  - assert (¬ (f < p ∧ s < f)%Q) by (by rewrite <- H1).
    destruct (proj1 H2 eq_refl). repeat split; try done.
    + intros [? _]. exfalso. apply (Qlt_irrefl f). by apply Qlt_trans with p.
    + tauto.
  - assert (¬ (f < p ∧ s < f)%Q) by (by rewrite <- H1).
    assert (¬ (f < p ∧ f < s)%Q) by (by rewrite <- H2).
    destruct (proj1 H3 eq_refl). repeat split; try done. tauto.
  - assert (¬ (f < p ∧ s < f)%Q) by (by rewrite <- H1).
    assert (¬ (f < p ∧ f < s)%Q) by (by rewrite <- H2).
    assert (¬ (p < f ∧ f < s)%Q) by (by rewrite <- H3).
    repeat split; done.
Qed.

End trend.

Lemma calculate_trend_partition_witness :
  calculate_trend 105 (Some 100%Q) (Some 95%Q)
  = Ok ("STRONG_BULLISH", ((100 - 95) / 95 * 100)%Q).
Proof.
  destruct (calculate_trend_partition 105 100 95) as [H _].
  - by vm_compute.
  - apply H. by vm_compute.
Defined.

(** ** RecommendationAdvisor: [get_current_recommendation] *)

Section recommendation.

Context (self : SimpleSignalGenerator.t).

(** A property of the accumulator that every iteration preserves holds of
    whatever the loop returns. *)
Lemma for_each_preserves {A S} (body : S → A → result S) (I : S → Prop)
    (xs : list A) (acc out : S) :
  (∀ acc x acc', I acc → body acc x = Ok acc' → I acc') →
  I acc → for_each body xs acc = Ok out → I out.
Proof.
  intros Hstep. revert acc.
  induction xs as [|x xs IH]; intros acc Hacc; simpl.
  - by intros [= <-].
  - destruct (body acc x) as [acc'|] eqn:Hbody; [|done]. simpl.
    apply IH. by eapply Hstep.
Qed.

Lemma crossover_step_kinds (df : DataFrame) (SMA_20 SMA_50 : list (option Q))
    (symbol : string) (signals acc' : list Signal.t) (i : nat) :
  Forall buy_or_sell signals →
  crossover_step self df SMA_20 SMA_50 symbol signals i = Ok acc' →
  Forall buy_or_sell acc'.
Proof.
  intros Hall. unfold crossover_step.
  destruct (iloc (index df) i) as [d|]; [|done]. simpl.
  destruct (iloc (Close df) i) as [p|]; [|done]. simpl.
  destruct (iloc SMA_20 i) as [f1|]; [|done]. simpl.
  destruct (iloc SMA_50 i) as [s1|]; [|done]. simpl.
  destruct (iloc SMA_20 (i - 1)) as [f0|]; [|done]. simpl.
  destruct (iloc SMA_50 (i - 1)) as [s0|]; [|done]. simpl.
  destruct f1 as [f1|], s1 as [s1|], f0 as [f0|], s0 as [s0|];
    try by intros [= <-].
  destruct (le f0 s0 && gt f1 s1).
  - unfold _create_buy_signal. destruct (truediv _ _); [|done]. simpl.
    intros [= <-]. apply Forall_app. split; [done|].
    repeat constructor.
  - destruct (ge f0 s0 && lt f1 s1); intros [= <-]; [|done].
    apply Forall_app. split; [done|]. constructor; [by right|constructor].
Qed.

(** Whatever the detector returns holds BUY and SELL signals only. *)
Lemma find_crossover_signals_kinds (data : option DataFrame)
    (symbol : string) (signals : list Signal.t) :
  find_crossover_signals self data symbol = Ok signals →
  Forall buy_or_sell signals.
Proof.
  unfold find_crossover_signals.
  destruct data as [df|]; [|by intros [= <-]].
  case_bool_decide; [by intros [= <-]|].
  destruct (columns df !! "SMA_20") as [SMA_20|]; [|by intros [= <-]].
  destruct (columns df !! "SMA_50") as [SMA_50|]; [|by intros [= <-]].
  apply for_each_preserves; [|constructor].
  intros acc x acc' Hacc. by apply crossover_step_kinds.
Qed.

(** C10.  On a non-empty list of signals returned by the detector the
    recommendation is one of the four advisories keyed on the latest
    signal (recent or old BUY, recent or old SELL); it is never the final
    UNCLEAR fallback. *)
Theorem recommendation_after_signals (data : option DataFrame)
    (symbol : string) (signals : list Signal.t) (now : Timestamp)
    (current_ma_status : gmap string value) :
  find_crossover_signals self data symbol = Ok signals →
  signals ≠ [] →
  ∃ r, get_current_recommendation self now signals current_ma_status = Ok r ∧
    (r = "📈 RECENT BUY SIGNAL - Consider entry or monitor position" ∨
     r = "⏳ OLD BUY SIGNAL - Reassess current conditions" ∨
     r = "📉 RECENT SELL SIGNAL - Avoid buying, consider exit" ∨
     r = "🔍 OLD SELL SIGNAL - Monitor for trend change") ∧
    r ≠ "🤔 UNCLEAR - Review signals and current trend".
Proof.
  intros Hfound Hne. apply find_crossover_signals_kinds in Hfound.
  unfold get_current_recommendation, get_latest_signal.
  destruct (last signals) as [latest|] eqn:Hlast;
    [|by apply last_None in Hlast].
  assert (buy_or_sell latest) as [Hkind|Hkind].
  { apply (proj1 (Forall_forall _ _) Hfound).
    by eapply last_Some_elem_of. }
  - rewrite bool_decide_eq_true_2 by done.
    case_bool_decide; eexists; (split; [done|]); split; [auto|done|auto|done].
  - rewrite bool_decide_eq_false_2 by (rewrite Hkind; done).
    rewrite bool_decide_eq_true_2 by done.
    case_bool_decide; eexists; (split; [done|]);
      split; [auto|done|auto|done].
Qed.

(** C8 (as the code behaves).  With no signal and a [current_ma_status]
    that lacks the averages, the lookup of ['sma_20'] gives [None] and its
    comparison with the default [0] raises [TypeError]: the call does not
    return the STAY AWAY advisory. *)
Theorem recommendation_without_averages_raises (now : Timestamp) :
  get_current_recommendation self now [] ∅ = Raise TypeError.
Proof. reflexivity. Qed.

(** With both averages present as floats the no-signal branch behaves as
    specified: WATCH FOR PULLBACK when both are defined and fast > slow,
    STAY AWAY otherwise (NaN included). *)
Lemma recommendation_no_signals_present (now : Timestamp)
    (current_ma_status : gmap string value) (fast slow : option Q) :
  current_ma_status !! "sma_20" = Some (PyNum fast) →
  current_ma_status !! "sma_50" = Some (PyNum slow) →
  get_current_recommendation self now [] current_ma_status
  = Ok (match fast, slow with
        | Some f, Some s =>
            if gt f s
            then "🟢 WATCH FOR PULLBACK - Currently bullish, wait for better entry"
            else "🔴 STAY AWAY - Currently bearish trend"
        | _, _ => "🔴 STAY AWAY - Currently bearish trend"
        end).
Proof.
  intros H20 H50. unfold get_current_recommendation, get, get_or. simpl.
  rewrite H20, H50. simpl.
  destruct fast as [f|], slow as [s|]; simpl; try done.
  by destruct (gt f s).
Qed.

End recommendation.

Lemma recommendation_after_signals_witness :
  ∃ signals r,
    find_crossover_signals with_defaults (Some crossing_frame) "TEST"
    = Ok signals ∧
    get_current_recommendation with_defaults (60 * ns_per_day)%Z signals ∅
    = Ok r.
Proof.
  assert (∃ signals,
            find_crossover_signals with_defaults (Some crossing_frame) "TEST"
            = Ok signals ∧ signals ≠ []) as (signals & Hfound & Hne).
  { eexists. split; [vm_compute; reflexivity|discriminate]. }
  destruct (recommendation_after_signals with_defaults (Some crossing_frame)
              "TEST" signals (60 * ns_per_day)%Z ∅ Hfound Hne)
    as (r & Hr & _).
  exists signals, r. split; [exact Hfound|exact Hr].
Defined.

(** ** The wall clock *)

Section clock.

Context (self : SimpleSignalGenerator.t).

(** C9 (as the code behaves).  The reference date is the current date read
    from the clock.  [days_holding] is that date minus the signal date in
    whole days, also when it is negative; and runs with the same arguments
    whose clock readings fall on the same date give the same performance
    analysis and the same recommendation. *)
Theorem evaluation_depends_on_clock_date (now1 now2 : Timestamp)
    (signal : Signal.t) (current_price : Q) (signals : list Signal.t)
    (current_ma_status : gmap string value) :
  date_of now1 = date_of now2 →
  analyze_signal_performance self now1 signal current_price
  = analyze_signal_performance self now2 signal current_price ∧
  get_current_recommendation self now1 signals current_ma_status
  = get_current_recommendation self now2 signals current_ma_status ∧
  (∀ p, analyze_signal_performance self now1 signal current_price
        = Ok (performance p) →
        Performance.days_holding p
        = (date_of now1 - date_of (Signal.date signal))%Z).
Proof.
  intros Hdate. split; [|split].
  - unfold analyze_signal_performance. by rewrite Hdate.
  - unfold get_current_recommendation. by rewrite Hdate.
  - intros p. unfold analyze_signal_performance.
    case_bool_decide; [done|].
    destruct (truediv _ _) as [ratio|]; [|done]. simpl.
    destruct (ge_field _ _) as [[]|]; simpl; [| |done].
    + by intros [= <-].
    + destruct (le_field _ _) as [[]|]; simpl; [| |done];
        by intros [= <-].
Qed.

End clock.

Lemma evaluation_depends_on_clock_date_witness :
  analyze_signal_performance with_defaults (105 * ns_per_day)%Z
    test_signal 105
  = analyze_signal_performance with_defaults (105 * ns_per_day + 3600)%Z
      test_signal 105.
Proof.
  destruct (evaluation_depends_on_clock_date with_defaults
              (105 * ns_per_day)%Z (105 * ns_per_day + 3600)%Z
              test_signal 105 [] ∅) as [H _].
  - reflexivity.
  - exact H.
Defined.

(** C9 (as stated) fails: with the same signal and the same current price,
    two runs at different clock readings report different holding periods
    and give different recommendations; and a clock reading before the
    signal date yields a report with a negative [days_holding] instead of a
    failure. *)
Lemma evaluation_reads_clock_counterexample :
  analyze_signal_performance with_defaults (105 * ns_per_day)%Z
    test_signal 105
  ≠ analyze_signal_performance with_defaults (110 * ns_per_day)%Z
      test_signal 105 ∧
  get_current_recommendation with_defaults (105 * ns_per_day)%Z
    [test_signal] ∅
  ≠ get_current_recommendation with_defaults (110 * ns_per_day)%Z
      [test_signal] ∅ ∧
  ∃ p, analyze_signal_performance with_defaults (90 * ns_per_day)%Z
         test_signal 105 = Ok (performance p) ∧
       Performance.days_holding p = (-10)%Z.
Proof.
  split; [|split].
  - vm_compute. discriminate.
  - vm_compute. discriminate.
  - eexists. split; [reflexivity|]. reflexivity.
Qed.

(** ** Insufficient data *)

Section insufficient.

Context (self : SimpleSignalGenerator.t) (symbol : string).

Lemma find_crossover_signals_short (df : DataFrame) :
  (len df < 51)%nat → find_crossover_signals self (Some df) symbol = Ok [].
Proof.
  intros Hlen. unfold find_crossover_signals.
  by rewrite bool_decide_eq_true_2.
Qed.

Lemma entirely_undefined_no_crossover (df : DataFrame) (i : nat) :
  entirely_undefined df "SMA_20" ∨ entirely_undefined df "SMA_50" →
  crossover df i = None.
Proof. intros [H|H]; apply crossover_undefined; rewrite H; eauto. Qed.

Lemma find_crossover_signals_undefined (df : DataFrame) :
  wf df →
  entirely_undefined df "SMA_20" ∨ entirely_undefined df "SMA_50" →
  find_crossover_signals self (Some df) symbol = Ok [].
Proof.
  intros Hwf Hundef.
  destruct (find_crossover_signals_spec self df symbol Hwf)
    as (out & -> & Hall).
  { intros i Hi. by rewrite entirely_undefined_no_crossover in Hi. }
  assert (crossover_bars df = []) as Hbars.
  { unfold crossover_bars.
    induction (range 1 (len df)) as [|i l IH]; [done|].
    rewrite filter_cons_False; [done|].
    rewrite entirely_undefined_no_crossover by done. by intros [? [=]]. }
  rewrite Hbars in Hall. case_bool_decide; by inversion Hall.
Qed.

Lemma iloc_last_rolling_mean (w : nat) (closes : list Q) :
  (0 < w)%nat → closes ≠ [] →
  iloc_last (rolling_mean w closes)
  = Ok (if bool_decide (w ≤ length closes)%nat
        then Some (mean_over closes (length closes - w) w) else None).
Proof.
  intros Hw Hne. unfold iloc_last.
  assert (0 < length closes)%nat by (destruct closes; [done|simpl; lia]).
  rewrite last_lookup, length_rolling_mean, rolling_mean_lookup by lia.
  repeat case_bool_decide; try lia; [|done].
  do 3 f_equal. lia.
Qed.

Lemma iloc_last_nonempty {A} (l : list A) :
  l ≠ [] → ∃ x, iloc_last l = Ok x.
Proof.
  intros [x Hx]%last_is_Some. exists x. unfold iloc_last. by rewrite Hx.
Qed.

End insufficient.

Section insufficient_data.

Context (self : SimpleSignalGenerator.t) (symbol : string).

(** C5 (as the code behaves).  The detector returns the empty list,
    without raising, on no frame, on a frame of fewer than 51 bars and on
    a frame one of whose average columns is entirely undefined.
    [analyze_stock] on a non-empty series of fewer than 50 bars returns no
    signals and the trend INSUFFICIENT_DATA with strength 0, as the trend
    block does whenever an average is undefined at the latest bar. *)
Theorem insufficient_data (df : DataFrame) :
  wf df →
  find_crossover_signals self None symbol = Ok [] ∧
  ((len df < 51)%nat →
     find_crossover_signals self (Some df) symbol = Ok []) ∧
  (entirely_undefined df "SMA_20" ∨ entirely_undefined df "SMA_50" →
     find_crossover_signals self (Some df) symbol = Ok []) ∧
  ((0 < len df < 50)%nat →
     ∃ r, analyze_stock (Some df) symbol = Ok r ∧
          signals r = [] ∧ trend r = "INSUFFICIENT_DATA" ∧
          trend_strength r = 0%Q) ∧
  (∀ p sma_20 sma_50, sma_20 = None ∨ sma_50 = None →
     calculate_trend p sma_20 sma_50 = Ok ("INSUFFICIENT_DATA", 0%Q)).
Proof.
  intros Hwf. split; [done|]. split; [apply find_crossover_signals_short|].
  split; [by apply find_crossover_signals_undefined|]. split.
  - intros Hlen. destruct Hwf as [Hclose _]. unfold len in *.
    assert (index df ≠ []) as Hidx by (intros E; rewrite E in Hlen;
                                        simpl in Hlen; lia).
    assert (Close df ≠ []) as Hcl by (intros E; rewrite E in Hclose;
                                       simpl in Hclose; lia).
    destruct (iloc_last_nonempty (index df) Hidx) as [d Hd].
    destruct (iloc_last_nonempty (Close df) Hcl) as [p Hp].
    unfold analyze_stock.
    rewrite add_moving_averages_nonempty by (unfold len; lia).
    rewrite find_crossover_signals_short by (unfold len; simpl; lia).
    unfold latest_get.
    pose proof (with_averages_short df 20 50) as H20.
    pose proof (with_averages_long df 20 50) as H50.
    change (sma_name 20) with "SMA_20" in H20.
    change (sma_name 50) with "SMA_50" in H50.
    rewrite H20, H50 by lia.
    rewrite !iloc_last_rolling_mean by (done || lia).
    rewrite (bool_decide_eq_false_2 (50 ≤ _)%nat) by lia.
    simpl. rewrite Hd, Hp. simpl.
    case_bool_decide; simpl; by eexists.
  - by intros p ? ? [-> | ->]; [|unfold calculate_trend; case_match].
Qed.

End insufficient_data.

Lemma insufficient_data_witness :
  ∃ r, analyze_stock (Some test_data) "TEST" = Ok r ∧
       signals r = [] ∧ trend r = "INSUFFICIENT_DATA" ∧
       trend_strength r = 0%Q.
Proof.
  destruct (insufficient_data with_defaults "TEST" test_data)
    as (_ & _ & _ & H & _).
  - by apply wf_without_columns.
  - apply H. vm_compute. lia.
Defined.

(** C5 (as stated) fails at exactly 50 bars: the series is shorter than
    51 bars and yields no signal, but both averages are defined at its last
    bar and the trend reported is MIXED_BEARISH, not INSUFFICIENT_DATA. *)
Lemma fifty_bars_trend_counterexample :
  (len fifty_flat < 50 + 1)%nat ∧
  ∃ r, analyze_stock (Some fifty_flat) "TEST" = Ok r ∧
       signals r = [] ∧ trend r = "MIXED_BEARISH" ∧
       trend r ≠ "INSUFFICIENT_DATA".
Proof.
  split; [vm_compute; lia|].
  eexists. split; [vm_compute; reflexivity|]. by simpl.
Qed.

(** * Further properties of the code *)

(** ** Moving averages *)

Section averages.

Lemma take_succ_lookup {A} (xs ys : list A) (i : nat) :
  take (S i) xs = take (S i) ys → xs !! i = ys !! i.
Proof.
  intros Htake.
  rewrite <- (lookup_take_lt xs (S i) i), <- (lookup_take_lt ys (S i) i)
    by lia.
  by rewrite Htake.
Qed.

(** The cell at bar [i] is computed from the closes up to bar [i] only. *)
Lemma rolling_mean_prefix (w : nat) (xs ys : list Q) (i : nat) :
  take (S i) xs = take (S i) ys →
  rolling_mean w xs !! i = rolling_mean w ys !! i.
Proof.
  intros Htake. unfold rolling_mean. rewrite !list_lookup_imap.
  rewrite (take_succ_lookup xs ys i Htake).
  destruct (ys !! i) as [y|]; [|done]. simpl.
  case_bool_decide as Hw; [|done].
  rewrite !take_drop_commute.
  replace (i + 1 - w + w)%nat with (S i) by lia. by rewrite Htake.
Qed.

Lemma cell_with_averages (data : DataFrame) (short_window long_window : nat)
    (w i : nat) :
  w = short_window ∨ w = long_window →
  cell (with_averages data short_window long_window) (sma_name w) i
  = rolling_mean w (Close data) !! i.
Proof.
  intros [-> | ->].
  - destruct (decide (short_window = long_window)) as [->|Hne].
    + apply cell_averaged, with_averages_long.
    + by apply cell_averaged, with_averages_short.
  - apply cell_averaged, with_averages_long.
Qed.

Lemma add_moving_averages_Some (data r : DataFrame) (short long : nat) :
  add_moving_averages (Some data) short long = Some r →
  len data ≠ 0%nat ∧ r = with_averages data short long.
Proof.
  unfold add_moving_averages, empty. case_bool_decide; [done|].
  by intros [= <-].
Qed.

(** X1.  No look-ahead: if two price frames have the same closes up to and
    including bar [i], the frames [add_moving_averages] builds from them
    have the same short and long average at bar [i], whatever the later
    closes are. *)
Theorem add_moving_averages_no_look_ahead
    (data1 data2 r1 r2 : DataFrame) (short_window long_window i : nat) :
  add_moving_averages (Some data1) short_window long_window = Some r1 →
  add_moving_averages (Some data2) short_window long_window = Some r2 →
  take (S i) (Close data1) = take (S i) (Close data2) →
  cell r1 (sma_name short_window) i = cell r2 (sma_name short_window) i ∧
  cell r1 (sma_name long_window) i = cell r2 (sma_name long_window) i.
Proof.
  intros [_ ->]%add_moving_averages_Some [_ ->]%add_moving_averages_Some
    Htake.
  rewrite !cell_with_averages by auto.
  split; by apply rolling_mean_prefix.
Qed.

Lemma filter_all {A} (P : A → Prop) `{!∀ x, Decision (P x)} (l : list A) :
  Forall P l → filter P l = l.
Proof.
  induction 1 as [|x l Hx _ IH]; [done|].
  by rewrite filter_cons_True, IH.
Qed.

Lemma filter_none {A} (P : A → Prop) `{!∀ x, Decision (P x)} (l : list A) :
  Forall (λ x, ¬ P x) l → filter P l = [].
Proof.
  induction 1 as [|x l Hx _ IH]; [done|].
  by rewrite filter_cons_False.
Qed.

(** A rolling mean over [w] bars has [len + 1 - w] valid values. *)
Lemma notna_sum_rolling_mean (w : nat) (xs : list Q) :
  (0 < w)%nat →
  notna_sum (rolling_mean w xs) = (length xs + 1 - w)%nat.
Proof.
  intros Hw. unfold notna_sum.
  rewrite <- (take_drop (w - 1) (rolling_mean w xs)), filter_app.
  rewrite filter_none, filter_all; simpl.
  - rewrite length_drop, length_rolling_mean. lia.
  - apply Forall_lookup_2. intros i c. rewrite lookup_drop. intros Hc.
    pose proof (lookup_lt_Some _ _ _ Hc) as Hlt.
    rewrite length_rolling_mean in Hlt.
    rewrite rolling_mean_lookup in Hc by lia.
    rewrite bool_decide_eq_true_2 in Hc by lia. injection Hc as <-.
    by eexists.
  - apply Forall_lookup_2. intros i c Hc.
    pose proof (lookup_lt_Some _ _ _ Hc) as Hlt.
    rewrite length_take, length_rolling_mean in Hlt.
    rewrite lookup_take_lt in Hc by lia.
    rewrite rolling_mean_lookup in Hc by lia.
    rewrite bool_decide_eq_false_2 in Hc by lia. injection Hc as <-.
    by intros [? [=]].
Qed.

(** X2.  In the frame built from a price frame with windows
    [0 < short_window <= long_window], the short average has
    [len + 1 - short_window] valid values and the long one
    [len + 1 - long_window] (none when the frame is shorter than the
    window), so the long average never has more valid values than the
    short one. *)
Theorem add_moving_averages_valid_counts
    (data r : DataFrame) (short_window long_window : nat) :
  wf data → (0 < short_window ≤ long_window)%nat →
  add_moving_averages (Some data) short_window long_window = Some r →
  ∃ short_ma long_ma,
    columns r !! sma_name short_window = Some short_ma ∧
    columns r !! sma_name long_window = Some long_ma ∧
    notna_sum short_ma = (len data + 1 - short_window)%nat ∧
    notna_sum long_ma = (len data + 1 - long_window)%nat ∧
    (notna_sum long_ma ≤ notna_sum short_ma)%nat.
Proof.
  intros [Hclose _] Hw [_ ->]%add_moving_averages_Some.
  exists (rolling_mean short_window (Close data)),
         (rolling_mean long_window (Close data)).
  rewrite !notna_sum_rolling_mean, Hclose by lia.
  split; [|split; [apply with_averages_long|split; [done|split; [done|lia]]]].
  destruct (decide (short_window = long_window)) as [->|Hne].
  - apply with_averages_long.
  - by apply with_averages_short.
Qed.

End averages.

Lemma add_moving_averages_no_look_ahead_witness :
  cell (with_averages test_data 3 5) (sma_name 3) 4
  = cell (with_averages (daily (take 5 (Close test_data) ++ [1000%Q])) 3 5)
      (sma_name 3) 4.
Proof.
  destruct (add_moving_averages_no_look_ahead test_data
              (daily (take 5 (Close test_data) ++ [1000%Q]))
              (with_averages test_data 3 5)
              (with_averages (daily (take 5 (Close test_data) ++ [1000%Q]))
                 3 5) 3 5 4) as [H _].
  - reflexivity.
  - reflexivity.
  - reflexivity.
  - exact H.
Defined.

Lemma add_moving_averages_valid_counts_witness :
  ∃ short_ma long_ma,
    columns (with_averages test_data 3 5) !! sma_name 3 = Some short_ma ∧
    columns (with_averages test_data 3 5) !! sma_name 5 = Some long_ma ∧
    notna_sum short_ma = 8%nat ∧ notna_sum long_ma = 6%nat.
Proof.
  destruct (add_moving_averages_valid_counts test_data
              (with_averages test_data 3 5) 3 5)
    as (short_ma & long_ma & Hs & Hl & Hcs & Hcl & _).
  - by apply wf_without_columns.
  - lia.
  - reflexivity.
  - exists short_ma, long_ma. repeat split; [exact Hs|exact Hl|exact Hcs|exact Hcl].
Defined.

Ltac Qconcrete := unfold Qle, Qlt, Qeq; simpl; lia.

Section frames.

(** X3.  [add_moving_averages] gives no frame for no frame or an empty one;
    for any other input it returns a frame with the same index and closes,
    in which every column other than the two averages is as it was, and
    which is well formed if the input is. *)
Theorem add_moving_averages_keeps_prices
    (data : DataFrame) (short_window long_window : nat) :
  add_moving_averages None short_window long_window = None ∧
  (len data = 0%nat →
     add_moving_averages (Some data) short_window long_window = None) ∧
  (len data ≠ 0%nat →
     ∃ r, add_moving_averages (Some data) short_window long_window = Some r ∧
       index r = index data ∧ Close r = Close data ∧
       (∀ name, name ≠ sma_name short_window → name ≠ sma_name long_window →
          columns r !! name = columns data !! name) ∧
       (wf data → wf r)).
Proof.
  split; [done|]. split.
  - intros Hlen. unfold add_moving_averages, empty.
    by rewrite bool_decide_eq_true_2.
  - intros Hlen. exists (with_averages data short_window long_window).
    split; [by apply add_moving_averages_nonempty|].
    split; [done|]. split; [done|]. split; [|apply with_averages_wf].
    intros name Hs Hl. simpl. by rewrite !lookup_insert_ne.
Qed.

(** X4.  Adding the averages again to a frame that already has them changes
    nothing. *)
Theorem add_moving_averages_idempotent
    (data : option DataFrame) (short_window long_window : nat) :
  add_moving_averages
    (add_moving_averages data short_window long_window)
    short_window long_window
  = add_moving_averages data short_window long_window.
Proof.
  destruct data as [data|]; [|done].
  destruct (decide (len data = 0%nat)) as [Hlen|Hlen].
  { assert (add_moving_averages (Some data) short_window long_window = None)
      as -> by (unfold add_moving_averages, empty;
                by rewrite bool_decide_eq_true_2).
    done. }
  rewrite (add_moving_averages_nonempty data) by done.
  rewrite add_moving_averages_nonempty by done. f_equal.
  unfold with_averages, set_column. simpl. f_equal.
  destruct (decide (sma_name short_window = sma_name long_window)) as [->|Hne].
  - by rewrite !insert_insert_eq.
  - rewrite (insert_insert_ne _ (sma_name short_window)
               (sma_name long_window)) by done.
    by rewrite !insert_insert_eq.
Qed.




End frames.

Lemma add_moving_averages_keeps_prices_witness :
  ∃ r, add_moving_averages (Some test_data) 3 5 = Some r ∧
       index r = index test_data ∧ Close r = Close test_data.
Proof.
  destruct (add_moving_averages_keeps_prices test_data 3 5) as (_ & _ & H).
  destruct H as (r & Hr & Hidx & Hclose & _).
  - vm_compute. discriminate.
  - exists r. split; [exact Hr|]. split; [exact Hidx|exact Hclose].
Defined.


(** ** The detector's output *)

Section detector_output.

Context (self : SimpleSignalGenerator.t) (df : DataFrame) (symbol : string).

Lemma create_buy_signal_fields (d : Timestamp) (p : Q) (s : Signal.t) :
  _create_buy_signal self d p symbol = Ok s →
  Signal.date s = d ∧ Signal.symbol s = symbol ∧ Signal.type s = "BUY" ∧
  Signal.price s = p ∧
  Signal.stop_loss s = Some (p * (1 - stop_loss_pct self))%Q ∧
  Signal.take_profit s = Some (p * (1 + take_profit_pct self))%Q.
Proof.
  unfold _create_buy_signal. destruct (truediv _ _); [|done]. simpl.
  by intros [= <-].
Qed.

(** Every returned signal belongs to a bar [1 <= i < len df] with a
    crossover. *)
Lemma find_crossover_signals_bars :
  wf df → ¬ (stop_loss_pct self == 0)%Q →
  ∃ out, find_crossover_signals self (Some df) symbol = Ok out ∧
    (length out ≤ length (crossover_bars df))%nat ∧
    ∀ s, s ∈ out →
      ∃ i, (1 ≤ i < len df)%nat ∧ emitted_at self df symbol i s.
Proof.
  intros Hwf Hpct.
  destruct (find_crossover_signals_spec self df symbol Hwf (λ _ _, Hpct))
    as (out & Hout & Hall).
  exists out. split; [done|]. split.
  - rewrite <- (Forall2_length _ _ _ Hall). case_bool_decide; simpl; lia.
  - intros s Hs. apply list_elem_of_lookup in Hs as [n Hn].
    destruct (Forall2_lookup_r _ _ _ _ _ Hall Hn) as (i & Hi & He).
    exists i. split; [|done]. case_bool_decide; [done|].
    apply list_elem_of_lookup_2 in Hi.
    by apply elem_of_crossover_bars in Hi as [_ ?].
Qed.

Lemma crossover_bars_warm_length :
  slow_warmup df → (length (crossover_bars df) ≤ len df - 50)%nat.
Proof.
  intros Hwarm. unfold crossover_bars, range.
  set (k := (49 `min` (len df - 1))%nat).
  replace (len df - 1)%nat with (k + (len df - 1 - k))%nat by lia.
  rewrite seq_app, filter_app, length_app.
  rewrite filter_none; simpl.
  - etrans; [apply length_filter|]. rewrite length_seq. lia.
  - apply Forall_forall. intros i Hi%elem_of_seq [ty Hty].
    unfold crossover in Hty. rewrite (Hwarm (i - 1)%nat) in Hty by lia.
    by destruct (ma df "SMA_20" (i - 1)).
Qed.

(** X6.  The detector returns at most one signal per bar after the first:
    at most [len - 1] signals, and at most [len - 50] on a frame whose slow
    average is undefined on its first 49 bars. *)
Theorem signal_count_bound :
  wf df → ¬ (stop_loss_pct self == 0)%Q →
  ∃ signals, find_crossover_signals self (Some df) symbol = Ok signals ∧
    (length signals ≤ len df - 1)%nat ∧
    (slow_warmup df → (length signals ≤ len df - 50)%nat).
Proof.
  intros Hwf Hpct.
  destruct (find_crossover_signals_bars Hwf Hpct) as (out & Hout & Hlen & _).
  exists out. split; [done|]. split.
  - etrans; [exact Hlen|]. unfold crossover_bars, range.
    etrans; [apply length_filter|]. by rewrite length_seq.
  - intros Hwarm. etrans; [exact Hlen|]. by apply crossover_bars_warm_length.
Qed.

(** X7.  Every returned signal carries the symbol passed in and the date
    and close of one bar [1 <= i < len] of the frame; a SELL signal carries
    no stop loss, take profit or risk/reward ratio. *)
Theorem emitted_signals_carry_bar :
  wf df → ¬ (stop_loss_pct self == 0)%Q →
  ∃ signals, find_crossover_signals self (Some df) symbol = Ok signals ∧
    ∀ s, s ∈ signals →
      Signal.symbol s = symbol ∧
      (∃ i, (1 ≤ i < len df)%nat ∧
            index df !! i = Some (Signal.date s) ∧
            Close df !! i = Some (Signal.price s)) ∧
      (Signal.type s = "SELL" →
         Signal.stop_loss s = None ∧ Signal.take_profit s = None ∧
         Signal.risk_reward_ratio s = None).
Proof.
  intros Hwf Hpct.
  destruct (find_crossover_signals_bars Hwf Hpct) as (out & Hout & _ & Hem).
  exists out. split; [done|]. intros s Hs.
  destruct (Hem s Hs) as (i & Hi & d & p & Hd & Hp & [[_ Hmade]|[_ ->]]).
  - apply create_buy_signal_fields in Hmade as (<- & Hsym & Hty & <- & _).
    split; [done|]. split; [by exists i|]. by rewrite Hty.
  - split; [done|]. split; [by exists i|]. done.
Qed.

End detector_output.

(** X9.  The detector only reads the columns SMA_20 and SMA_50: on a frame
    built by [add_moving_averages] with windows other than 50 (from prices
    that had no SMA_50 column) it returns no signal, whatever the prices. *)
Theorem other_windows_no_signals (self : SimpleSignalGenerator.t)
    (data : DataFrame) (symbol : string) (short_window long_window : nat) :
  columns data !! "SMA_50" = None →
  short_window ≠ 50%nat → long_window ≠ 50%nat →
  find_crossover_signals self
    (add_moving_averages (Some data) short_window long_window) symbol
  = Ok [].
Proof.
  intros Hcol Hs Hl.
  destruct (decide (len data = 0%nat)) as [Hlen|Hlen].
  { assert (add_moving_averages (Some data) short_window long_window = None)
      as -> by (unfold add_moving_averages, empty;
                by rewrite bool_decide_eq_true_2).
    done. }
  rewrite add_moving_averages_nonempty by done.
  unfold find_crossover_signals. case_bool_decide; [done|].
  assert (columns (with_averages data short_window long_window) !! "SMA_50"
          = None) as ->.
  { simpl. change "SMA_50" with (sma_name 50).
    rewrite !lookup_insert_ne; [done| |];
      intros Heq%sma_name_inj; congruence. }
  by destruct (columns _ !! "SMA_20").
Qed.

Lemma signal_count_bound_witness :
  ∃ signals,
    find_crossover_signals with_defaults (Some crossing_frame) "TEST"
    = Ok signals ∧ (length signals ≤ 62 - 50)%nat.
Proof.
  destruct (signal_count_bound with_defaults crossing_frame "TEST")
    as (signals & Hs & _ & Hwarm).
  - apply crossing_frame_wf.
  - apply default_stop_loss_pct_nonzero.
  - exists signals. split; [exact Hs|]. apply Hwarm, with_averages_warmup.
Defined.

Lemma emitted_signals_carry_bar_witness :
  ∃ signals,
    find_crossover_signals with_defaults (Some crossing_frame) "TEST"
    = Ok signals ∧
    ∀ s, s ∈ signals → Signal.symbol s = "TEST".
Proof.
  destruct (emitted_signals_carry_bar with_defaults crossing_frame "TEST")
    as (signals & Hs & Hall).
  - apply crossing_frame_wf.
  - apply default_stop_loss_pct_nonzero.
  - exists signals. split; [exact Hs|]. intros s Hin.
    by destruct (Hall s Hin) as [? _].
Defined.

Lemma crossing_closes_positive :
  ∀ p, p ∈ Close crossing_frame → (0 < p)%Q.
Proof.
  intros p Hp. simpl in Hp. unfold crossing_closes in Hp.
  repeat (apply elem_of_app in Hp as [Hp|Hp]);
    apply elem_of_replicate in Hp as [-> _]; Qconcrete.
Qed.

Lemma other_windows_no_signals_witness :
  find_crossover_signals with_defaults
    (add_moving_averages (Some (daily crossing_closes)) 10 20) "TEST"
  = Ok [].
Proof.
  apply (other_windows_no_signals with_defaults (daily crossing_closes)
           "TEST" 10 20).
  - reflexivity.
  - lia.
  - lia.
Defined.

(** ** Recommendation *)

Section latest_signal.

Context (self : SimpleSignalGenerator.t) (now : Timestamp).

(** X11.  With at least one signal the recommendation always returns, and
    it is decided by the latest signal alone: the earlier signals and the
    moving-average status play no part. *)
Theorem recommendation_latest_only (earlier : list Signal.t)
    (latest : Signal.t) (status status' : gmap string value) :
  get_current_recommendation self now (earlier ++ [latest]) status
  = get_current_recommendation self now [latest] status' ∧
  ∃ r, get_current_recommendation self now (earlier ++ [latest]) status
       = Ok r.
Proof.
  unfold get_current_recommendation, get_latest_signal.
  rewrite last_snoc. simpl. split; [done|].
  repeat case_bool_decide; by eexists.
Qed.

End latest_signal.

(** ** The command-line caller *)

Section caller.

Context (signal_gen : SimpleSignalGenerator.t) (now : Timestamp).

Lemma last_of_rolling_mean (data : DataFrame) (w : nat) :
  wf data → len data ≠ 0%nat → (0 < w)%nat →
  iloc_last (rolling_mean w (Close data))
  = Ok (if bool_decide (w ≤ len data)%nat
        then Some (mean_over (Close data) (len data - w) w) else None).
Proof.
  intros [Hclose _] Hlen Hw. rewrite <- Hclose.
  apply iloc_last_rolling_mean; [done|].
  intros E. rewrite E in Hclose. simpl in Hclose. lia.
Qed.

(** X12.  On a frame built by [add_moving_averages] with the default
    windows, the caller's status dictionary holds both averages as floats,
    so the recommendation never fails (no [KeyError], no [TypeError]).  With
    no signal it is WATCH FOR PULLBACK when both latest averages are defined
    and the 20-day one is above the 50-day one, and STAY AWAY otherwise, in
    particular whenever the series has fewer than 50 bars. *)
Theorem main_recommendation_returns (data df : DataFrame)
    (signals : list Signal.t) :
  wf data → add_moving_averages (Some data) 20 50 = Some df →
  ∃ r, Main.recommendation signal_gen now df signals = Main.Returned r ∧
    (signals = [] →
       ∃ fast slow,
         Main.last_of_column df "SMA_20" = Main.Returned fast ∧
         Main.last_of_column df "SMA_50" = Main.Returned slow ∧
         ((len data < 50)%nat → slow = None) ∧
         r = match fast, slow with
             | Some f, Some s =>
                 if gt f s
                 then "🟢 WATCH FOR PULLBACK - Currently bullish, wait for better entry"
                 else "🔴 STAY AWAY - Currently bearish trend"
             | _, _ => "🔴 STAY AWAY - Currently bearish trend"
             end).
Proof.
  intros Hwf [Hlen ->]%add_moving_averages_Some.
  pose proof (with_averages_short data 20 50) as H20.
  pose proof (with_averages_long data 20 50) as H50.
  change (sma_name 20) with "SMA_20" in H20.
  change (sma_name 50) with "SMA_50" in H50.
  unfold Main.recommendation, Main.current_ma_status, Main.last_of_column.
  rewrite H20, H50 by lia.
  rewrite !last_of_rolling_mean by (done || lia). simpl.
  set (fast := if bool_decide (20 ≤ len data)%nat then _ else None).
  set (slow := if bool_decide (50 ≤ len data)%nat then _ else None).
  destruct signals as [|s0 rest] eqn:Hsignals.
  - rewrite (recommendation_no_signals_present signal_gen now _ fast slow)
      by done.
    simpl. eexists. split; [done|]. intros _. exists fast, slow.
    repeat split. intros Hshort. unfold slow.
    by rewrite bool_decide_eq_false_2 by lia.
  - unfold get_current_recommendation, get_latest_signal.
    destruct (last (s0 :: rest)) as [latest|] eqn:Hlast;
      [|by apply last_None in Hlast].
    repeat case_bool_decide; by eexists.
Qed.

(** X13.  For every signal the detector returns on a frame with increasing
    dates, [days_ago], the age the caller prints counted from the last bar,
    is defined and is not negative. *)
Theorem days_ago_nonnegative (df : DataFrame) (symbol : string) :
  wf df → ascending (index df) → ¬ (stop_loss_pct signal_gen == 0)%Q →
  ∃ signals, find_crossover_signals signal_gen (Some df) symbol = Ok signals ∧
    ∀ s, s ∈ signals → ∃ d, Main.days_ago df s = Ok d ∧ (0 ≤ d)%Z.
Proof.
  intros Hwf Hasc Hpct.
  destruct (find_crossover_signals_bars signal_gen df symbol Hwf Hpct)
    as (out & Hout & _ & Hem).
  exists out. split; [done|]. intros s Hs.
  destruct (Hem s Hs) as (i & Hi & He).
  apply emitted_at_date_type in He as [Hdate _].
  unfold Main.days_ago, iloc_last. rewrite last_lookup.
  destruct (lookup_lt_is_Some_2 (index df) (pred (length (index df))))
    as [last_bar Hlast]; [unfold len in Hi; lia|].
  rewrite Hlast. simpl. eexists. split; [done|].
  assert (Signal.date s ≤ last_bar)%Z as Hle.
  { destruct (decide (i = pred (length (index df)))) as [->|Hne].
    - rewrite Hlast in Hdate. injection Hdate as <-. lia.
    - pose proof (StronglySorted_lookup Z.lt _ i _ _ _ Hasc Hdate Hlast).
      unfold len in Hi. lia. }
  unfold date_of, ns_per_day.
  pose proof (Z.div_le_mono (Signal.date s) last_bar 86400000000000).
  lia.
Qed.

End caller.

Lemma main_recommendation_returns_witness :
  Main.recommendation with_defaults 0%Z (with_averages test_data 20 50) []
  = Main.Returned "🔴 STAY AWAY - Currently bearish trend".
Proof.
  destruct (main_recommendation_returns with_defaults 0%Z test_data
              (with_averages test_data 20 50) [])
    as (r & Hr & Hnone).
  - by apply wf_without_columns.
  - reflexivity.
  - destruct (Hnone eq_refl) as (fast & slow & _ & _ & Hslow & ->).
    rewrite Hr. rewrite Hslow by (vm_compute; lia). by destruct fast.
Defined.

Lemma days_ago_nonnegative_witness :
  ∃ signals,
    find_crossover_signals with_defaults (Some crossing_frame) "TEST"
    = Ok signals ∧
    ∀ s, s ∈ signals →
         ∃ d, Main.days_ago crossing_frame s = Ok d ∧ (0 ≤ d)%Z.
Proof.
  apply (days_ago_nonnegative with_defaults crossing_frame "TEST").
  - apply crossing_frame_wf.
  - apply (bool_decide_unpack _). by vm_compute.
  - apply default_stop_loss_pct_nonzero.
Defined.

(** ** The API endpoint *)

Section endpoint.

Context (symbol : string).

Lemma count_types (signals : list Signal.t) :
  Forall buy_or_sell signals →
  length signals = (count_type "BUY" signals + count_type "SELL" signals)%nat.
Proof.
  unfold count_type. induction 1 as [|s l [Hs|Hs] _ IH]; [done|..].
  - rewrite filter_cons_True by done.
    rewrite (filter_cons_False (λ s, Signal.type s = "SELL"))
      by (rewrite Hs; done).
    simpl. lia.
  - rewrite filter_cons_False by (rewrite Hs; done).
    rewrite (filter_cons_True (λ s, Signal.type s = "SELL")) by done.
    simpl. lia.
Qed.

(** What a successful call went through. *)
Lemma analyze_stock_Ok (fetched : option DataFrame) (r : response) :
  analyze_stock fetched symbol = Ok r →
  ∃ data, fetched = Some data ∧ len data ≠ 0%nat ∧
    find_crossover_signals signal_generator
      (Some (with_averages data 20 50)) symbol = Ok (signals r) ∧
    signals_count_total r = length (signals r) ∧
    signals_count_buy r = count_type "BUY" (signals r) ∧
    signals_count_sell r = count_type "SELL" (signals r) ∧
    data_points r = len data.
Proof.
  unfold analyze_stock. intros H%as_http_500_Ok.
  destruct fetched as [data|]; [|done]. exists data. split; [done|].
  destruct (add_moving_averages (Some data) 20 50) as [df|] eqn:Hdf; [|done].
  apply add_moving_averages_Some in Hdf as [Hlen ->]. split; [done|].
  destruct (find_crossover_signals _ _ _) as [found|]; [|done].
  simpl in H.
  destruct (iloc_last (index _)) as [d|]; [|done]. simpl in H.
  destruct (latest_get _ "SMA_20") as [f|]; [|done]. simpl in H.
  destruct (latest_get _ "SMA_50") as [s|]; [|done]. simpl in H.
  destruct (iloc_last (Close _)) as [p|]; [|done]. simpl in H.
  destruct (calculate_trend p f s) as [[label strength]|]; [|done].
  simpl in H. by injection H as <-.
Qed.

(** X14.  In every response the signal counts add up: [total] is the number
    of signals listed and equals [buy + sell]. *)
Theorem signals_count_adds_up (fetched : option DataFrame) (r : response) :
  analyze_stock fetched symbol = Ok r →
  signals_count_total r = length (signals r) ∧
  signals_count_total r = (signals_count_buy r + signals_count_sell r)%nat.
Proof.
  intros (data & _ & _ & Hfound & -> & -> & -> & _)%analyze_stock_Ok.
  split; [done|]. by eapply count_types, find_crossover_signals_kinds.
Qed.

Lemma iloc_last_Raise {A} (l : list A) (e : exn) :
  iloc_last l = Raise e → e = IndexError.
Proof. unfold iloc_last. destruct (last l); [done|]. by intros [= <-]. Qed.

Lemma truediv_Raise (a b : Q) (e : exn) :
  truediv a b = Raise e → e = ZeroDivisionError.
Proof. unfold truediv. destruct (Qeq_bool b 0); [|done]. by intros [= <-]. Qed.

Lemma calculate_trend_Raise (p : Q) (f s : option Q) (e : exn) :
  calculate_trend p f s = Raise e → e = ZeroDivisionError.
Proof.
  unfold calculate_trend. destruct f as [f|], s as [s|]; try done.
  repeat case_match; try done;
    (destruct (truediv _ _) eqn:Hdiv; simpl; [done|]);
    intros [= <-]; by apply truediv_Raise in Hdiv.
Qed.

Lemma latest_get_Raise (df : DataFrame) (name : string) (e : exn) :
  latest_get df name = Raise e → e = IndexError.
Proof.
  unfold latest_get. destruct (columns df !! name); [|done].
  apply iloc_last_Raise.
Qed.

(** X15.  The endpoint fails with status 404 when nothing was fetched and
    with status 500 on an empty frame; on a well-formed frame the only
    failure it can report is status 500. *)
Theorem analyze_stock_failures (data : DataFrame) :
  analyze_stock None symbol = Raise (HTTPException 404) ∧
  (len data = 0%nat →
     analyze_stock (Some data) symbol = Raise (HTTPException 500)) ∧
  (wf data → ∀ e, analyze_stock (Some data) symbol = Raise e →
     e = HTTPException 500).
Proof.
  split; [done|]. split.
  - intros Hlen. unfold analyze_stock, add_moving_averages, empty.
    by rewrite bool_decide_eq_true_2.
  - intros Hwf e. unfold analyze_stock.
    destruct (add_moving_averages (Some data) 20 50) as [df|] eqn:Hdf;
      [|by intros [= <-]].
    apply add_moving_averages_Some in Hdf as [Hlen ->].
    destruct (find_crossover_signals_spec signal_generator
                (with_averages data 20 50) symbol)
      as (out & -> & _).
    { by apply with_averages_wf. }
    { intros _ _. apply default_stop_loss_pct_nonzero. }
    simpl.
    destruct (iloc_last (index _)) as [d|] eqn:E1; simpl;
      [|apply iloc_last_Raise in E1 as ->; by intros [= <-]].
    destruct (latest_get _ "SMA_20") as [f|] eqn:E2; simpl;
      [|apply latest_get_Raise in E2 as ->; by intros [= <-]].
    destruct (latest_get _ "SMA_50") as [s|] eqn:E3; simpl;
      [|apply latest_get_Raise in E3 as ->; by intros [= <-]].
    destruct (iloc_last (Close _)) as [p|] eqn:E4; simpl;
      [|apply iloc_last_Raise in E4 as ->; by intros [= <-]].
    destruct (calculate_trend p f s) as [[label strength]|] eqn:E5; simpl;
      [done|apply calculate_trend_Raise in E5 as ->; by intros [= <-]].
Qed.






End endpoint.



Lemma signals_count_adds_up_witness :
  ∃ r, analyze_stock (Some (daily crossing_closes)) "TEST" = Ok r ∧
       signals_count_total r
       = (signals_count_buy r + signals_count_sell r)%nat.
Proof.
  assert (∃ r, analyze_stock (Some (daily crossing_closes)) "TEST" = Ok r)
    as [r Hr] by (eexists; vm_compute; reflexivity).
  exists r. split; [exact Hr|].
  destruct (signals_count_adds_up "TEST" (Some (daily crossing_closes)) r Hr)
    as [_ H].
  exact H.
Defined.

Lemma analyze_stock_failures_witness :
  analyze_stock (Some (daily [])) "TEST" = Raise (HTTPException 500).
Proof.
  destruct (analyze_stock_failures "TEST" (daily [])) as (_ & H & _).
  apply H. reflexivity.
Defined.

(** ** The two trend classifications *)

Section two_trends.

Ltac to_props :=
  repeat match goal with
    | H : gt _ _ = true |- _ => apply gt_spec in H
    | H : lt _ _ = true |- _ => apply lt_spec in H
    | H : gt _ _ = false |- _ =>
        apply not_true_iff_false in H; rewrite gt_spec in H
    | H : lt _ _ = false |- _ =>
        apply not_true_iff_false in H; rewrite lt_spec in H
    end.

(** X17.  The trend printed by [analyze_trend] and the label computed by
    the API agree on the two strong and the price-up mixed cases; the API's
    MIXED_BEARISH covers both the printed "price down" mixed trend and
    NEUTRAL, and NEUTRAL is printed exactly when the close equals the 20-day
    average or the two averages are equal. *)
Theorem trend_labels_agree (p f s : Q) :
  ¬ (s == 0)%Q →
  ∃ label strength,
    calculate_trend p (Some f) (Some s) = Ok (label, strength) ∧
    (label = "STRONG_BULLISH" ↔
       (describe_trend p f s).1 = "🟢 STRONG BULLISH") ∧
    (label = "MIXED_BULLISH" ↔
       (describe_trend p f s).1 = "🟡 MIXED (Price up, but trend weakening)") ∧
    (label = "STRONG_BEARISH" ↔
       (describe_trend p f s).1 = "🔴 STRONG BEARISH") ∧
    (label = "MIXED_BEARISH" ↔
       (describe_trend p f s).1
       = "🟡 MIXED (Price down, but trend strengthening)" ∨
       (describe_trend p f s).1 = "🟡 NEUTRAL") ∧
    ((describe_trend p f s).1 = "🟡 NEUTRAL" ↔ (p == f)%Q ∨ (f == s)%Q).
Proof.
  intros Hs. unfold calculate_trend, describe_trend.
  rewrite !truediv_nonzero by done. simpl.
  destruct (gt p f) eqn:E1, (gt f s) eqn:E2, (lt p f) eqn:E3,
    (lt f s) eqn:E4; simpl; to_props;
    (eexists _, _; split; [done|]); simpl;
    repeat split; try done; try (intros [?|?]; done); try (by auto);
    try (intros [?|?]; lra); try (intros _; first [left; lra|right; lra]).
Qed.

End two_trends.

Lemma trend_labels_agree_witness :
  ∃ label strength,
    calculate_trend 100 (Some 100%Q) (Some 100%Q) = Ok (label, strength) ∧
    label = "MIXED_BEARISH" ∧
    (describe_trend 100 100 100).1 = "🟡 NEUTRAL".
Proof.
  destruct (trend_labels_agree 100 100 100)
    as (label & strength & Hl & _ & _ & _ & Hmb & Hn).
  - Qconcrete.
  - exists label, strength. split; [exact Hl|].
    assert ((describe_trend 100 100 100).1 = "🟡 NEUTRAL") as Hneutral
      by (apply Hn; left; reflexivity).
    split; [|exact Hneutral]. apply Hmb. right. exact Hneutral.
Defined.

(** ** The printed trend analysis *)

Section trend_report.

Context (fmt2 : Q → string) (symbol : string).


End trend_report.


(** ** Fetching *)

Section fetching.

(** X19.  [get_stock_data] gives [None] exactly when the download raised or
    returned an empty frame; a frame it hands on is the downloaded one and
    is never empty, so [add_moving_averages] always builds its frame from
    it and the endpoint answers a failed fetch with status 404. *)
Theorem fetched_frames_nonempty (history : result DataFrame)
    (symbol : string) :
  (get_stock_data history = None ↔
     (∃ e, history = Raise e) ∨ (∃ d, history = Ok d ∧ len d = 0%nat)) ∧
  (∀ d, get_stock_data history = Some d →
     history = Ok d ∧ len d ≠ 0%nat ∧
     ∀ short_window long_window,
       add_moving_averages (get_stock_data history) short_window long_window
       = Some (with_averages d short_window long_window)) ∧
  (get_stock_data history = None →
     analyze_stock (get_stock_data history) symbol
     = Raise (HTTPException 404)).
Proof.
  unfold get_stock_data, empty. destruct history as [data|e].
  - case_bool_decide as Hlen.
    + split; [|split; [done|done]].
      split; [|done]. intros _. right. by exists data.
    + split; [|split; [|done]].
      * split; [done|]. intros [[e [=]]|[d [[= <-] Hd]]]. done.
      * intros d [= <-]. split; [done|]. split; [done|].
        intros short_window long_window.
        by apply add_moving_averages_nonempty.
  - split; [|split; [done|done]].
    split; [|done]. intros _. left. by exists e.
Qed.

End fetching.

Lemma fetched_frames_nonempty_witness :
  analyze_stock (get_stock_data (Raise IndexError)) "TEST"
  = Raise (HTTPException 404).
Proof.
  destruct (fetched_frames_nonempty (Raise IndexError) "TEST") as (_ & _ & H).
  apply H. reflexivity.
Defined.

(** ** The signals summary and the formatted signals *)

Section summary.

Context (strftime : Timestamp → string) (fmt2 fmt_signed1 : Q → string).
Context (self : SimpleSignalGenerator.t) (now : Timestamp).
Context (current_price : option Q).

Lemma display_signal_returns (i : nat) (s : Signal.t) :
  displayable s →
  ∃ lines,
    display_signal strftime fmt2 fmt_signed1 self now current_price i s
    = Main.Returned lines ∧ (1 ≤ length lines ≤ 3)%nat.
Proof.
  unfold display_signal.
  intros [Hsell|(Hbuy & [sl Hsl] & [tp Htp] & Hprice)].
  - rewrite bool_decide_eq_false_2 by (rewrite Hsell; done).
    eexists. split; [done|]. simpl. lia.
  - rewrite bool_decide_eq_true_2 by done. rewrite Hsl, Htp. simpl.
    destruct (truthy current_price); [|eexists; split; [done|simpl; lia]].
    unfold analyze_signal_performance.
    rewrite bool_decide_eq_false_2 by (by intros []).
    rewrite truediv_nonzero by done. simpl. rewrite Hsl, Htp. simpl.
    destruct (ge _ tp); simpl; [eexists; split; [done|simpl; lia]|].
    destruct (le _ sl); simpl; eexists; (split; [done|simpl; lia]).
Qed.

Lemma display_each_returns (i : nat) (recent : list Signal.t) :
  Forall displayable recent →
  ∃ lines,
    display_each strftime fmt2 fmt_signed1 self now current_price i recent
    = Main.Returned lines ∧
    (length recent ≤ length lines ≤ 3 * length recent)%nat.
Proof.
  intros Hall. revert i.
  induction Hall as [|s rest Hs _ IH]; intros i; simpl.
  - eexists. split; [done|]. simpl. lia.
  - destruct (display_signal_returns i s Hs) as (lines & -> & Hlines).
    destruct (IH (S i)) as (more & -> & Hmore). simpl.
    eexists. split; [done|]. rewrite length_app. lia.
Qed.

Lemma recent_signals_length (signals : list Signal.t) :
  length (recent_signals signals) = (3 `min` length signals)%nat.
Proof.
  unfold recent_signals. case_bool_decide; [|lia].
  rewrite length_drop. lia.
Qed.

Lemma detected_signals_displayable (df : DataFrame) (symbol : string) :
  wf df → (∀ p, p ∈ Close df → (0 < p)%Q) →
  ¬ (stop_loss_pct self == 0)%Q →
  ∃ signals, find_crossover_signals self (Some df) symbol = Ok signals ∧
    Forall displayable signals.
Proof.
  intros Hwf Hpos Hpct.
  destruct (find_crossover_signals_bars self df symbol Hwf Hpct)
    as (out & Hout & _ & Hem).
  exists out. split; [done|]. apply Forall_forall. intros s Hs.
  destruct (Hem s Hs) as (i & Hi & d & p & Hd & Hp & [[_ Hmade]|[_ ->]]).
  - apply create_buy_signal_fields in Hmade as (_ & _ & Hty & <- & Hsl & Htp).
    right. split; [done|]. rewrite Hsl, Htp.
    apply list_elem_of_lookup_2, Hpos in Hp.
    repeat split; try by eexists. lra.
  - by left.
Qed.

Lemma display_signals_summary_returns (signals : list Signal.t) :
  Forall displayable signals → signals ≠ [] →
  ∃ lines,
    display_signals_summary strftime fmt2 fmt_signed1 self now signals
      current_price = Main.Returned lines ∧
    (5 + 3 `min` length signals ≤ length lines)%nat ∧
    (length lines ≤ 5 + 3 * (3 `min` length signals))%nat.
Proof.
  intros Hall Hne. unfold display_signals_summary.
  destruct signals as [|s0 rest]; [done|]. cbv beta iota.
  remember (s0 :: rest) as signals eqn:Hsignals. clear Hsignals Hne.
  destruct (display_each_returns 1 (recent_signals signals))
    as (recent & -> & Hrecent).
  { unfold recent_signals. case_bool_decide; [|done]. by apply Forall_drop. }
  rewrite recent_signals_length in Hrecent.
  eexists. split; [reflexivity|]. rewrite length_app. cbn [length]. lia.
Qed.

(** X20.  The summary of the signals the detector returns on a well-formed
    frame of positive closes never fails, with or without a current price.
    For no signal it is the single line "No signals found"; otherwise it is
    the five header lines followed by one to three lines for each of the
    last three signals (or of all of them when there are fewer). *)
Theorem display_detected_signals (df : DataFrame) (symbol : string) :
  wf df → (∀ p, p ∈ Close df → (0 < p)%Q) →
  ¬ (stop_loss_pct self == 0)%Q →
  ∃ signals lines,
    find_crossover_signals self (Some df) symbol = Ok signals ∧
    display_signals_summary strftime fmt2 fmt_signed1 self now signals
      current_price = Main.Returned lines ∧
    (signals = [] → lines = ["📭 No signals found"]) ∧
    (signals ≠ [] →
       (5 + 3 `min` length signals ≤ length lines)%nat ∧
       (length lines ≤ 5 + 3 * (3 `min` length signals))%nat).
Proof.
  intros Hwf Hpos Hpct.
  destruct (detected_signals_displayable df symbol Hwf Hpos Hpct)
    as (signals & Hfound & Hall).
  exists signals.
  destruct (decide (signals = [])) as [->|Hne].
  { eexists. by repeat split. }
  destruct (display_signals_summary_returns signals Hall Hne)
    as (lines & Hlines & Hbounds).
  exists lines. split; [done|]. split; [done|].
  split; [by intros ?|by intros _].
Qed.

End summary.

Section formatted.

Context (strftime isoformat : Timestamp → string) (round2 : Q → Q).
Context (self : SimpleSignalGenerator.t) (df : DataFrame) (symbol : string).

Lemma truthy_positive (v : Q) : (0 < v)%Q → truthy (Some v) = true.
Proof.
  intros Hv. unfold truthy. destruct (Qeq_bool v 0) eqn:E; [|done].
  apply Qeq_bool_iff in E. lra.
Qed.

(** X21.  The signals sent to the front end are the detector's signals, in
    order and with their types.  On a well-formed frame of positive closes,
    with a stop-loss percentage strictly between 0 and 1 and a positive
    take-profit percentage, a formatted BUY signal always carries its
    rounded stop loss and take profit and its risk/reward ratio, and a
    formatted SELL signal carries none. *)
Theorem formatted_detected_signals :
  wf df → (∀ p, p ∈ Close df → (0 < p)%Q) →
  (0 < stop_loss_pct self)%Q → (stop_loss_pct self < 1)%Q →
  (0 < take_profit_pct self)%Q →
  ∃ signals, find_crossover_signals self (Some df) symbol = Ok signals ∧
    ApiFormat.type
      <$> ApiFormat.formatted_signals strftime isoformat round2 symbol signals
    = Signal.type <$> signals ∧
    ∀ s, s ∈ signals →
      (Signal.type s = "BUY" →
         ∃ stop_loss take_profit,
           Signal.stop_loss s = Some stop_loss ∧
           Signal.take_profit s = Some take_profit ∧
           ApiFormat.risk
             (ApiFormat.format_signal strftime isoformat round2 symbol s)
           = Some (round2 stop_loss, round2 take_profit,
                   Signal.risk_reward_ratio s)) ∧
      (Signal.type s = "SELL" →
         ApiFormat.risk
           (ApiFormat.format_signal strftime isoformat round2 symbol s)
         = None).
Proof.
  intros Hwf Hpos Hsl0 Hsl1 Htp0.
  assert (¬ (stop_loss_pct self == 0)%Q) as Hpct by lra.
  destruct (find_crossover_signals_bars self df symbol Hwf Hpct)
    as (out & Hout & _ & Hem).
  exists out. split; [done|]. split.
  { unfold ApiFormat.formatted_signals. rewrite <- list_fmap_compose.
    by apply list_fmap_ext. }
  intros s Hs. unfold ApiFormat.format_signal. simpl.
  destruct (Hem s Hs) as (i & Hi & d & p & Hd & Hp & [[_ Hmade]|[_ ->]]).
  - apply create_buy_signal_fields in Hmade as (_ & _ & Hty & <- & Hsl & Htp).
    apply list_elem_of_lookup_2, Hpos in Hp.
    rewrite Hty, Hsl, Htp. split; [|done]. intros _.
    rewrite bool_decide_eq_true_2 by done.
    rewrite !truthy_positive by nra. simpl. by eexists _, _.
  - simpl. split; [done|]. by intros _.
Qed.

End formatted.

Lemma display_detected_signals_witness :
  ∃ signals lines,
    find_crossover_signals with_defaults (Some crossing_frame) "TEST"
    = Ok signals ∧
    display_signals_summary (λ _, "d") (λ _, "x") (λ _, "y") with_defaults
      0%Z signals (Some 100%Q) = Main.Returned lines.
Proof.
  destruct (display_detected_signals (λ _, "d") (λ _, "x") (λ _, "y")
              with_defaults 0%Z (Some 100%Q) crossing_frame "TEST")
    as (signals & lines & Hs & Hl & _).
  - apply crossing_frame_wf.
  - apply crossing_closes_positive.
  - apply default_stop_loss_pct_nonzero.
  - exists signals, lines. split; [exact Hs|exact Hl].
Defined.

Lemma formatted_detected_signals_witness :
  ∃ signals,
    find_crossover_signals with_defaults (Some crossing_frame) "TEST"
    = Ok signals ∧
    ApiFormat.type
      <$> ApiFormat.formatted_signals (λ _, "d") (λ _, "i") (λ x, x)
            "TEST" signals
    = Signal.type <$> signals.
Proof.
  destruct (formatted_detected_signals (λ _, "d") (λ _, "i") (λ x, x)
              with_defaults crossing_frame "TEST")
    as (signals & Hs & Hty & _).
  - apply crossing_frame_wf.
  - apply crossing_closes_positive.
  - Qconcrete.
  - Qconcrete.
  - Qconcrete.
  - exists signals. split; [exact Hs|exact Hty].
Defined.
